(** * convert.py: Word-to-LaTeX conversion driver

    A shallow embedding of [src/convert.py] and the properties of its
    three functions [convert_docx_to_latex], [create_zip_archive] and
    [batch_convert], and of the command-line entry point [main].

    The script is glue code around three libraries, so the embedding has
    three layers:

    - [pathlib]: a [Path] is an anchor and a list of components, with
      [name], [stem], [suffix], [parent], [str] and the [/] operator as
      CPython 3.10-3.13 define them for POSIX paths;
    - the file system: a finite map from paths to nodes, on which
      [exists], [is_dir], [is_file], [mkdir], [glob] and [rglob] are
      defined; symbolic links, permissions, time stamps, limits on path
      lengths, the interpretation of [..] (a component [..] is a name
      like any other) and the aliasing of relative and absolute
      spellings of one location are outside the model, and so are the
      errors they cause;
    - the external converter: an arbitrary function from a command line
      and a file system to an exit status, a diagnostic text and a new
      file system.  Being a function, it models the runs of the
      converter that end; the script sets no time-out, so a converter
      that hangs blocks it, and every statement below is about runs
      that end.

    Python code is written in a state-and-exception monad over a [World]
    (file system, the two output streams and the log of spawned
    processes); a raised exception keeps the state reached so far. *)

From Stdlib Require Import ZArith Ascii String List Bool Lia.
From stdpp Require Import base option list strings gmap fin_maps pretty.

Open Scope string_scope.
Open Scope list_scope.

(** ** Strings *)

Module Str.

(** [s.rfind(c)]: the index of the last occurrence, [None] for -1. *)
Fixpoint rfind (c : ascii) (s : string) : option nat :=
  match s with
  | EmptyString => None
  | String a s' =>
      match rfind c s' with
      | Some i => Some (S i)
      | None => if Ascii.eqb a c then Some 0 else None
      end
  end.

(** [s[:n]] *)
Fixpoint take (n : nat) (s : string) : string :=
  match n, s with
  | S n', String a s' => String a (take n' s')
  | _, _ => EmptyString
  end.

(** [s[n:]] *)
Fixpoint drop (n : nat) (s : string) : string :=
  match n, s with
  | S n', String _ s' => drop n' s'
  | _, _ => s
  end.

(** ASCII case folding, the part of [str.lower] that matters for an
    extension. *)
Definition lower_ascii (a : ascii) : ascii :=
  let n := nat_of_ascii a in
  if (65 <=? n)%nat && (n <=? 90)%nat then ascii_of_nat (n + 32) else a.

Fixpoint lower (s : string) : string :=
  match s with
  | EmptyString => EmptyString
  | String a s' => String (lower_ascii a) (lower s')
  end.

(** [s.endswith(suf)] *)
Definition endswith (suf s : string) : bool :=
  (String.length suf <=? String.length s)%nat
  && String.eqb (drop (String.length s - String.length suf) s) suf.

(** [s.split(c)] *)
Fixpoint split (c : ascii) (s : string) : list string :=
  match s with
  | EmptyString => [EmptyString]
  | String a s' =>
      let r := split c s' in
      if Ascii.eqb a c then EmptyString :: r
      else match r with
           | x :: xs => String a x :: xs
           | [] => [String a EmptyString]
           end
  end.

(** [c.join(l)] *)
Fixpoint join (sep : string) (l : list string) : string :=
  match l with
  | [] => EmptyString
  | [x] => x
  | x :: xs => x +:+ sep +:+ join sep xs
  end.

(** [s.lstrip(c)] *)
Fixpoint lstrip (c : ascii) (s : string) : string :=
  match s with
  | String a s' => if Ascii.eqb a c then lstrip c s' else s
  | EmptyString => EmptyString
  end.

Definition contains (c : ascii) (s : string) : bool :=
  match rfind c s with Some _ => true | None => false end.

End Str.

Definition newline : string := String (ascii_of_nat 10) EmptyString.

(** ** pathlib *)

(** The root of a POSIX path: none, one slash, or exactly two. *)
Inductive Root := NoRoot | Slash | Slash2.

Record Path := mkPath { root : Root; parts : list string }.

#[global] Instance Root_eq_dec : EqDecision Root.
Proof. solve_decision. Defined.

#[global] Instance Path_eq_dec : EqDecision Path.
Proof. solve_decision. Defined.

Definition Root_to_nat (r : Root) : nat :=
  match r with NoRoot => 0 | Slash => 1 | Slash2 => 2 end.

Definition Root_of_nat (n : nat) : Root :=
  match n with 0 => NoRoot | 1 => Slash | _ => Slash2 end.

#[global] Instance Path_countable : Countable Path.
Proof.
  refine (inj_countable'
            (fun p => (Root_to_nat (root p), parts p))
            (fun x => mkPath (Root_of_nat (fst x)) (snd x)) _).
  intros [[] l]; reflexivity.
Defined.

Module PurePath.

Definition slash : ascii := "/"%char.
Definition dot : ascii := "."%char.

(** [_PosixFlavour.splitroot] *)
Definition splitroot (part : string) : Root * string :=
  match part with
  | String a _ =>
      if Ascii.eqb a slash then
        let stripped := Str.lstrip slash part in
        if Nat.eqb (String.length part - String.length stripped) 2
        then (Slash2, stripped) else (Slash, stripped)
      else (NoRoot, part)
  | EmptyString => (NoRoot, part)
  end.

Definition is_component (x : string) : bool :=
  negb (String.eqb x "") && negb (String.eqb x ".").

(** [_Flavour.parse_parts] on one string. *)
Definition parse (s : string) : Path :=
  let '(r, rel) := splitroot s in
  mkPath r (List.filter is_component (Str.split slash rel)).

(** [p / key] for a string key. *)
Definition joinpath (p : Path) (key : string) : Path :=
  let k := parse key in
  match root k with
  | NoRoot => mkPath (root p) (parts p ++ parts k)
  | _ => k
  end.

(** [p.name] *)
Definition name (p : Path) : string := List.last (parts p) "".

(** [p.parent] *)
Definition parent (p : Path) : Path :=
  mkPath (root p) (List.removelast (parts p)).

Definition has_suffix (nm : string) : option nat :=
  match Str.rfind dot nm with
  | Some i =>
      if (0 <? i)%nat && (i <? String.length nm - 1)%nat then Some i else None
  | None => None
  end.

(** [p.suffix] *)
Definition suffix (p : Path) : string :=
  let nm := name p in
  match has_suffix nm with
  | Some i => Str.drop i nm
  | None => ""
  end.

(** [p.stem] *)
Definition stem (p : Path) : string :=
  let nm := name p in
  match has_suffix nm with
  | Some i => Str.take i nm
  | None => nm
  end.

Definition root_str (r : Root) : string :=
  match r with NoRoot => "" | Slash => "/" | Slash2 => "//" end.

(** [str(p)] *)
Definition str (p : Path) : string :=
  let s := root_str (root p) +:+ Str.join "/" (parts p) in
  if String.eqb s "" then "." else s.

(** [p.relative_to(d)], used only where [d] is an ancestor of [p]. *)
Definition relative_to (p d : Path) : Path :=
  mkPath NoRoot (List.skipn (List.length (parts d)) (parts p)).

End PurePath.

Notation "p // s" := (PurePath.joinpath p s) (at level 40, left associativity).

(** ** Exceptions and the state monad *)

Inductive exn_kind :=
| FileNotFoundError | NotADirectoryError | FileExistsError | IsADirectoryError
| OSError | ValueError | RuntimeError.

#[global] Instance exn_kind_eq_dec : EqDecision exn_kind.
Proof. solve_decision. Defined.

(** An exception: its class and [str(e)]. *)
Record exn := mkExn { kind : exn_kind; message : string }.

Inductive outcome (A : Type) :=
| Ok (a : A)
| Raise (e : exn).
Arguments Ok {A} a.
Arguments Raise {A} e.

Definition is_ok {A} (r : outcome A) : bool :=
  match r with Ok _ => true | Raise _ => false end.

(** ** The file system *)

(** The bytes of a regular file; an archive written by [zipfile] is kept
    as its list of members. *)
Inductive file_data :=
| Raw (bytes : string)
| Zip (members : list ZipInfo)
with ZipInfo :=
| mkZipInfo (filename : string) (compress_type : Z) (data : file_data).

Definition zi_filename (z : ZipInfo) : string :=
  match z with mkZipInfo f _ _ => f end.
Definition zi_compress_type (z : ZipInfo) : Z :=
  match z with mkZipInfo _ c _ => c end.
Definition zi_data (z : ZipInfo) : file_data :=
  match z with mkZipInfo _ _ d => d end.

Definition ZIP_STORED : Z := 0.
Definition ZIP_DEFLATED : Z := 8.

Inductive node :=
| File (d : file_data)
| Dir.

Abbreviation FileSystem := (gmap Path node).

Module Fs.

(** [os.stat]: the two roots always exist. *)
Definition stat (fs : FileSystem) (p : Path) : option node :=
  match parts p with
  | [] => Some Dir
  | _ => fs !! p
  end.

Definition exists_ (fs : FileSystem) (p : Path) : bool :=
  match stat fs p with Some _ => true | None => false end.

Definition is_dir (fs : FileSystem) (p : Path) : bool :=
  match stat fs p with Some Dir => true | _ => false end.

Definition is_file (fs : FileSystem) (p : Path) : bool :=
  match stat fs p with Some (File _) => true | _ => false end.

(** The proper ancestors of a path, nearest first. *)
Fixpoint ancestors_rev (r : Root) (rparts : list string) : list Path :=
  match rparts with
  | [] => []
  | _ :: up => mkPath r (rev up) :: ancestors_rev r up
  end.

Definition ancestors (p : Path) : list Path :=
  ancestors_rev (root p) (rev (parts p)).

Definition quote (p : Path) : string := "'" +:+ PurePath.str p +:+ "'".

Definition ENOENT (p : Path) : exn :=
  mkExn FileNotFoundError ("[Errno 2] No such file or directory: " +:+ quote p).
Definition EEXIST (p : Path) : exn :=
  mkExn FileExistsError ("[Errno 17] File exists: " +:+ quote p).
Definition ENOTDIR (p : Path) : exn :=
  mkExn NotADirectoryError ("[Errno 20] Not a directory: " +:+ quote p).
Definition EISDIR (p : Path) : exn :=
  mkExn IsADirectoryError ("[Errno 21] Is a directory: " +:+ quote p).

(** What resolving the directory part of [p] reports when [p] itself
    is absent: the parent is a directory, or a component on the way is
    a regular file, or a component is missing. *)
Definition resolve_parent (fs : FileSystem) (p : Path) : outcome unit :=
  match stat fs (PurePath.parent p) with
  | Some Dir => Ok tt
  | Some (File _) => Raise (ENOTDIR p)
  | None =>
      if existsb (is_file fs) (ancestors p) then Raise (ENOTDIR p)
      else Raise (ENOENT p)
  end.

(** [os.mkdir(p)] *)
Definition os_mkdir (p : Path) (fs : FileSystem) : outcome unit * FileSystem :=
  match stat fs p with
  | Some _ => (Raise (EEXIST p), fs)
  | None =>
      match resolve_parent fs p with
      | Ok _ => (Ok tt, <[p := Dir]> fs)
      | Raise e => (Raise e, fs)
      end
  end.

(** [Path.mkdir(parents=False, exist_ok=True)] *)
Definition mkdir_exist_ok (p : Path) (fs : FileSystem) : outcome unit * FileSystem :=
  match os_mkdir p fs with
  | (Ok _, fs') => (Ok tt, fs')
  | (Raise e, fs') =>
      match kind e with
      | FileNotFoundError => (Raise e, fs')
      | _ => if is_dir fs' p then (Ok tt, fs') else (Raise e, fs')
      end
  end.

(** [Path.mkdir(parents=True, exist_ok=True)], by recursion on the
    components of the path, innermost first, as pathlib recurses on
    [self.parent]. *)
Fixpoint mkdir_rev (r : Root) (rparts : list string) (fs : FileSystem)
  : outcome unit * FileSystem :=
  let self := mkPath r (rev rparts) in
  match os_mkdir self fs with
  | (Ok _, fs') => (Ok tt, fs')
  | (Raise e, fs') =>
      match kind e with
      | FileNotFoundError =>
          match rparts with
          | [] => (Raise e, fs')
          | _ :: up =>
              match mkdir_rev r up fs' with
              | (Ok _, fs1) => mkdir_exist_ok self fs1
              | (Raise e1, fs1) => (Raise e1, fs1)
              end
          end
      | _ => if is_dir fs' self then (Ok tt, fs') else (Raise e, fs')
      end
  end.

Definition mkdir_parents (p : Path) (fs : FileSystem) : outcome unit * FileSystem :=
  mkdir_rev (root p) (rev (parts p)) fs.

(** [os.scandir(d)]: the entries whose parent is [d]. *)
Definition is_child_of (d q : Path) : bool :=
  bool_decide (root q = root d)
  && bool_decide (parts q <> [])
  && bool_decide (removelast (parts q) = parts d).

Definition scandir (fs : FileSystem) (d : Path) : list (Path * node) :=
  List.filter (fun qn => is_child_of d (fst qn)) (map_to_list fs).

(** [d.glob('*.docx')]: nothing unless [d] is a directory; the pattern
    is matched against the entry name, case-sensitively, and an empty
    stem matches the star. *)
Definition fnmatch_star_docx (nm : string) : bool := Str.endswith ".docx" nm.

Definition glob_docx (fs : FileSystem) (d : Path) : list Path :=
  if is_dir fs d then
    List.filter (fun q => fnmatch_star_docx (PurePath.name q))
                (List.map fst (scandir fs d))
  else [].

(** [d.rglob('*')]: every entry below [d], at any depth.  The order of
    the enumeration is that of the map; the order [os.scandir] gives is
    not modelled, and no statement below depends on it. *)
Definition is_below (d q : Path) : bool :=
  bool_decide (root q = root d)
  && bool_decide (take (length (parts d)) (parts q) = parts d)
  && (length (parts d) <? length (parts q))%nat.

Definition rglob_star (fs : FileSystem) (d : Path) : list Path :=
  if is_dir fs d then
    List.filter (is_below d) (List.map fst (map_to_list fs))
  else [].

(** [q] is [d] or below it. *)
Definition is_within (d q : Path) : bool :=
  bool_decide (root q = root d)
  && bool_decide (take (length (parts d)) (parts q) = parts d).

(** [open(p, 'rb').read()] for a path known to be a regular file. *)
Definition read (fs : FileSystem) (p : Path) : file_data :=
  match stat fs p with
  | Some (File d) => d
  | _ => Raw ""
  end.

(** [open(p, 'w+b')]: create or truncate. *)
Definition open_w (p : Path) (fs : FileSystem) : outcome unit * FileSystem :=
  match stat fs p with
  | Some Dir => (Raise (EISDIR p), fs)
  | Some (File _) => (Ok tt, <[p := File (Raw "")]> fs)
  | None =>
      match resolve_parent fs p with
      | Ok _ => (Ok tt, <[p := File (Raw "")]> fs)
      | Raise e => (Raise e, fs)
      end
  end.

(** A file system is a tree: every entry sits in a directory. *)
Definition is_tree (fs : FileSystem) : bool :=
  forallb (fun qn => is_dir fs (PurePath.parent (fst qn))) (map_to_list fs).

(** The names a directory entry can have. *)
Definition valid_name (x : string) : bool :=
  negb (String.eqb x "") && negb (String.eqb x ".")
  && negb (String.eqb x "..") && negb (Str.contains PurePath.slash x).

Definition valid_names (fs : FileSystem) : bool :=
  forallb (fun qn => forallb valid_name (parts (fst qn))) (map_to_list fs).

End Fs.

(** ** The world and the monad of the script *)

(** [subprocess.CompletedProcess], with the fields the script reads. *)
Record CompletedProcess := mkCompleted { returncode : Z; proc_stderr : string }.

(** The external program: it may fail to start (an exception) or run to
    an exit status, and it may change the file system either way. *)
Definition Process := list string -> FileSystem -> outcome CompletedProcess * FileSystem.

Record World := mkWorld {
  fs : FileSystem;
  stdout : list string;
  stderr : list string;
  spawned : list (list string)
}.

Definition set_fs (w : World) (f : FileSystem) : World :=
  mkWorld f (stdout w) (stderr w) (spawned w).

Definition M (A : Type) : Type := World -> outcome A * World.

Definition ret {A} (a : A) : M A := fun w => (Ok a, w).

Definition raise {A} (e : exn) : M A := fun w => (Raise e, w).

Definition bind {A B} (m : M A) (k : A -> M B) : M B :=
  fun w =>
    match m w with
    | (Ok a, w') => k a w'
    | (Raise e, w') => (Raise e, w')
    end.

(** [try: m except Exception as e: h e] *)
Definition try_except {A} (m : M A) (h : exn -> M A) : M A :=
  fun w =>
    match m w with
    | (Ok a, w') => (Ok a, w')
    | (Raise e, w') => h e w'
    end.

Notation "x <- m ;; k" := (bind m (fun x => k))
  (at level 100, m at next level, right associativity).
Notation "m ;;; k" := (bind m (fun _ => k))
  (at level 100, right associativity).

(** [print(s)] and [print(s, file=sys.stderr)] *)
Definition print (s : string) : M unit :=
  fun w => (Ok tt, mkWorld (fs w) (stdout w ++ [s]) (stderr w) (spawned w)).

Definition eprint (s : string) : M unit :=
  fun w => (Ok tt, mkWorld (fs w) (stdout w) (stderr w ++ [s]) (spawned w)).

(** Queries and updates of the file system, lifted to the monad. *)
Definition Path_exists (p : Path) : M bool := fun w => (Ok (Fs.exists_ (fs w) p), w).
Definition Path_is_dir (p : Path) : M bool := fun w => (Ok (Fs.is_dir (fs w) p), w).
Definition Path_is_file (p : Path) : M bool := fun w => (Ok (Fs.is_file (fs w) p), w).

Definition lift_fs {A} (f : FileSystem -> outcome A * FileSystem) : M A :=
  fun w => let '(r, f') := f (fs w) in (r, set_fs w f').

Definition Path_mkdir (p : Path) : M unit := lift_fs (Fs.mkdir_parents p).

Definition Path_glob_docx (d : Path) : M (list Path) :=
  fun w => (Ok (Fs.glob_docx (fs w) d), w).

Definition Path_rglob_star (d : Path) : M (list Path) :=
  fun w => (Ok (Fs.rglob_star (fs w) d), w).

(** [subprocess.run(cmd, capture_output=True, text=True)] *)
Definition subprocess_run (run : Process) (cmd : list string) : M CompletedProcess :=
  fun w =>
    let '(r, f') := run cmd (fs w) in
    (r, mkWorld f' (stdout w) (stderr w) (spawned w ++ [cmd])).

(** ** zipfile *)

(** [zf.write(filename, arcname)] on an archive opened with the given
    default compression; [zf] is the member list so far.  A directory is
    stored as an empty member whose name ends in a slash, with the
    compression of a fresh [ZipInfo].  The normalisation of [arcname]
    ([os.path.normpath], leading slashes dropped) is the identity on the
    names this script passes and is left out.  Time stamps and name
    encodings are not modelled, so the [ValueError] of a file last
    modified before 1980 is not either. *)
Definition ZipFile_write (compression : Z) (zf : list ZipInfo)
    (filename : Path) (arcname : string) : M (list ZipInfo) :=
  fun w =>
    match Fs.stat (fs w) filename with
    | None => (Raise (Fs.ENOENT filename), w)
    | Some Dir => (Ok (zf ++ [mkZipInfo (arcname +:+ "/") ZIP_STORED (Raw "")]), w)
    | Some (File d) => (Ok (zf ++ [mkZipInfo arcname compression d]), w)
    end.

(** [with zipfile.ZipFile(zip_path, "w", compression) as zf: body]:
    the file is created or truncated, the body adds members, and closing
    writes the archive.  (No body in this script raises; for one that
    did, the model keeps the empty file, where Python would close the
    archive over the members added so far.) *)
Definition with_ZipFile (zip_path : Path)
    (body : list ZipInfo -> M (list ZipInfo)) : M unit :=
  lift_fs (Fs.open_w zip_path) ;;;
  zf <- body [] ;;
  fun w => (Ok tt, set_fs w (<[zip_path := File (Zip zf)]> (fs w))).

(** ** convert.py *)

(** Lines 96-99: the loop over [media_dir.rglob("*")]. *)
Fixpoint add_media (media_dir : Path) (files : list Path) (zf : list ZipInfo)
  : M (list ZipInfo) :=
  match files with
  | [] => ret zf
  | media_file :: rest =>
      isf <- Path_is_file media_file ;;
      if (isf : bool) then
        let arcname :=
          "media/" +:+ PurePath.str (PurePath.relative_to media_file media_dir) in
        zf' <- ZipFile_write ZIP_DEFLATED zf media_file arcname ;;
        add_media media_dir rest zf'
      else add_media media_dir rest zf
  end.

(** Lines 88-99: the body of the [with] block. *)
Definition zip_body (doc_dir : Path) (doc_name : string) (zf : list ZipInfo)
  : M (list ZipInfo) :=
  let tex_file := doc_dir // (doc_name +:+ ".tex") in
  ex <- Path_exists tex_file ;;
  zf1 <- (if (ex : bool)
          then ZipFile_write ZIP_DEFLATED zf tex_file (PurePath.name tex_file)
          else ret zf) ;;
  let media_dir := doc_dir // "media" in
  exm <- Path_exists media_dir ;;
  if (exm : bool) then
    files <- Path_rglob_star media_dir ;;
    add_media media_dir files zf1
  else ret zf1.

Definition create_zip_archive (doc_dir : Path) (doc_name : string) : M Path :=
  let zip_path := doc_dir // (doc_name +:+ ".zip") in
  with_ZipFile zip_path (zip_body doc_dir doc_name) ;;;
  ret zip_path.

(** Lines 48-56: the command line of the converter. *)
Definition pandoc_cmd (input_path doc_dir output_path : Path)
    (standalone extract_media : bool) : list string :=
  let cmd := ["pandoc"; PurePath.str input_path] in
  let cmd := if standalone then cmd ++ ["-s"] else cmd in
  let cmd := if extract_media
             then cmd ++ ["--extract-media"; PurePath.str doc_dir] else cmd in
  cmd ++ ["-o"; PurePath.str output_path].

Definition doc_dir_of (input_path : Path) (output_dir : option Path) : Path :=
  let doc_name := PurePath.stem input_path in
  let parent_dir :=
    match output_dir with Some d => d | None => PurePath.parent input_path end in
  parent_dir // doc_name.

Definition output_path_of (input_path : Path) (output_dir : option Path) : Path :=
  doc_dir_of input_path output_dir // (PurePath.stem input_path +:+ ".tex").

Definition convert_docx_to_latex (run : Process) (input_file : Path)
    (output_dir : option Path) (standalone extract_media : bool) : M Path :=
  let input_path := input_file in
  ex <- Path_exists input_path ;;
  if negb ex then
    raise (mkExn FileNotFoundError
             ("Input file not found: " +:+ PurePath.str input_path))
  else if negb (String.eqb (Str.lower (PurePath.suffix input_path)) ".docx") then
    raise (mkExn ValueError
             ("Input file must be .docx format: " +:+ PurePath.str input_path))
  else
    let doc_name := PurePath.stem input_path in
    let doc_dir := doc_dir_of input_path output_dir in
    Path_mkdir doc_dir ;;;
    let output_path := doc_dir // (doc_name +:+ ".tex") in
    let cmd := pandoc_cmd input_path doc_dir output_path standalone extract_media in
    print ("Converting: " +:+ PurePath.name input_path +:+ " -> " +:+ doc_name
           +:+ "/" +:+ PurePath.name output_path) ;;;
    result <- subprocess_run run cmd ;;
    if negb (Z.eqb (returncode result) 0) then
      raise (mkExn RuntimeError ("Pandoc error: " +:+ proc_stderr result))
    else
      print ("Successfully created: " +:+ PurePath.str output_path) ;;;
      zip_path <- create_zip_archive doc_dir doc_name ;;
      print ("Created archive: " +:+ PurePath.str zip_path) ;;;
      ret output_path.

(** Lines 139-145: the loop of [batch_convert]. *)
Fixpoint batch_loop (run : Process) (docx_files : list Path) (output_path : Path)
    (standalone extract_media : bool) (converted : list Path) : M (list Path) :=
  match docx_files with
  | [] => ret converted
  | docx_file :: rest =>
      converted' <-
        try_except
          (result <- convert_docx_to_latex run docx_file (Some output_path)
                       standalone extract_media ;;
           ret (converted ++ [result]))
          (fun e =>
             eprint ("Error converting " +:+ PurePath.name docx_file +:+ ": "
                     +:+ message e) ;;;
             ret converted) ;;
      batch_loop run rest output_path standalone extract_media converted'
  end.

Definition batch_convert (run : Process) (input_dir : Path)
    (output_dir : option Path) (standalone extract_media : bool)
  : M (list Path) :=
  let input_path := input_dir in
  let output_path := match output_dir with Some d => d | None => input_path end in
  isd <- Path_is_dir input_path ;;
  if negb isd then
    raise (mkExn NotADirectoryError ("Not a directory: " +:+ PurePath.str input_path))
  else
    Path_mkdir output_path ;;;
    docx_files <- Path_glob_docx input_path ;;
    match docx_files with
    | [] =>
        print ("No .docx files found in " +:+ PurePath.str input_path) ;;;
        ret []
    | _ =>
        print ("Found " +:+ pretty (length docx_files) +:+ " Word document(s)"
               +:+ newline) ;;;
        batch_loop run docx_files output_path standalone extract_media []
    end.

(** The parsed command line. *)
Record Args := mkArgs {
  input : string;
  output : option string;
  no_standalone : bool;
  no_media : bool
}.

(** Lines 175-181: the paths and options taken from the arguments. *)
Definition input_path_of (args : Args) : Path := PurePath.parse (input args).

Definition output_path_arg (args : Args) : option Path :=
  match output args with
  | Some s => if String.eqb s "" then None else Some (PurePath.parse s)
  | None => None
  end.

(** Lines 184-188: the body of the [try] block of [main]. *)
Definition main_try (run : Process) (args : Args) : M unit :=
  let input_path := input_path_of args in
  let output_path := output_path_arg args in
  let standalone := negb (no_standalone args) in
  let extract_media := negb (no_media args) in
  isd <- Path_is_dir input_path ;;
  if (isd : bool) then
    results <- batch_convert run input_path output_path standalone extract_media ;;
    print (newline +:+ "Converted " +:+ pretty (length results) +:+ " file(s)")
  else
    convert_docx_to_latex run input_path output_path standalone extract_media ;;;
    ret tt.

(** [main], after [parser.parse_args()]; the result is the exit status
    of the process: 1 from [sys.exit(1)], 0 when [main] returns. *)
Definition main (run : Process) (args : Args) : World -> Z * World :=
  fun w =>
    match main_try run args w with
    | (Ok _, w') => (0%Z, w')
    | (Raise e, w') => (1%Z, snd (eprint ("Error: " +:+ message e) w'))
    end.

(** ** Vocabulary of the specification *)

(** The line [batch_convert] writes to the diagnostic stream for a
    failed item. *)
Definition error_line (docx_file : Path) (e : exn) : string :=
  "Error converting " +:+ PurePath.name docx_file +:+ ": " +:+ message e.

(** The items of a batch, run one after the other, each in the world its
    predecessors left; the result pairs every item with what its
    conversion returned or raised. *)
Fixpoint run_items (run : Process) (files : list Path) (output_path : Path)
    (standalone extract_media : bool) (w : World)
  : list (Path * outcome Path) * World :=
  match files with
  | [] => ([], w)
  | f :: rest =>
      let '(r, w1) :=
        convert_docx_to_latex run f (Some output_path) standalone extract_media w in
      let w2 :=
        match r with
        | Ok _ => w1
        | Raise e => snd (eprint (error_line f e) w1)
        end in
      let '(rs, w3) := run_items run rest output_path standalone extract_media w2 in
      ((f, r) :: rs, w3)
  end.

Fixpoint successes (l : list (Path * outcome Path)) : list Path :=
  match l with
  | [] => []
  | (_, Ok r) :: l' => r :: successes l'
  | (_, Raise _) :: l' => successes l'
  end.

Fixpoint failures (l : list (Path * outcome Path)) : list (Path * exn) :=
  match l with
  | [] => []
  | (_, Ok _) :: l' => failures l'
  | (f, Raise e) :: l' => (f, e) :: failures l'
  end.

(** The failures that are the converter's: the process ran and exited
    with a non-zero status. *)
Definition external_failures (l : list (Path * outcome Path)) : list (Path * exn) :=
  List.filter (fun fe => bool_decide (kind (snd fe) = RuntimeError)) (failures l).

(** The member a regular file [q] below [media_dir] contributes. *)
Definition media_member (fs0 : FileSystem) (media_dir q : Path) : ZipInfo :=
  mkZipInfo ("media/" +:+ PurePath.str (PurePath.relative_to q media_dir))
            ZIP_DEFLATED (Fs.read fs0 q).

(** The state [mkdir(parents=True, exist_ok=True)] leaves on success:
    the old entries, plus directories. *)
Definition extends (fs fs' : FileSystem) : Prop :=
  (forall q n, fs !! q = Some n -> fs' !! q = Some n)
  /\ (forall q n, fs' !! q = Some n -> fs !! q = Some n \/ n = Dir).

(** The members [create_zip_archive] writes when the file system is
    [fs0] once the archive file is open. *)
Definition tex_members (fs0 : FileSystem) (tex_file : Path) : list ZipInfo :=
  match Fs.stat fs0 tex_file with
  | None => []
  | Some Dir => [mkZipInfo (PurePath.name tex_file +:+ "/") ZIP_STORED (Raw "")]
  | Some (File d) => [mkZipInfo (PurePath.name tex_file) ZIP_DEFLATED d]
  end.

Definition media_members (fs0 : FileSystem) (media_dir : Path) : list ZipInfo :=
  if Fs.exists_ fs0 media_dir then
    List.map (media_member fs0 media_dir)
             (List.filter (Fs.is_file fs0) (Fs.rglob_star fs0 media_dir))
  else [].

Definition archive_members (fs0 : FileSystem) (doc_dir : Path)
    (doc_name : string) : list ZipInfo :=
  tex_members fs0 (doc_dir // (doc_name +:+ ".tex"))
  ++ media_members fs0 (doc_dir // "media").

(** The worlds a conversion goes through: after the bundle directory is
    made and the first progress line printed, and after the converter
    has run. *)
Definition converting_line (input_path : Path) (output_dir : option Path) : string :=
  "Converting: " +:+ PurePath.name input_path +:+ " -> "
  +:+ PurePath.stem input_path +:+ "/"
  +:+ PurePath.name (output_path_of input_path output_dir).

Definition world_before_run (w : World) (f1 : FileSystem) (line : string) : World :=
  mkWorld f1 (stdout w ++ [line]) (stderr w) (spawned w).

Definition world_after_run (w : World) (f2 : FileSystem) (line : string)
    (cmd : list string) : World :=
  mkWorld f2 (stdout w ++ [line]) (stderr w) (spawned w ++ [cmd]).

(** ** Sample converters and file systems *)

Fixpoint arg_after (flag : string) (cmd : list string) : option string :=
  match cmd with
  | a :: ((b :: _) as rest) =>
      if String.eqb a flag then Some b else arg_after flag rest
  | _ => None
  end.

(** A converter that writes its output file and exits with status 0. *)
Definition pandoc_ok : Process :=
  fun cmd f =>
    match arg_after "-o" cmd with
    | Some o => (Ok (mkCompleted 0 ""), <[PurePath.parse o := File (Raw "tex")]> f)
    | None => (Ok (mkCompleted 0 ""), f)
    end.

(** A converter that writes nothing and exits with status 1. *)
Definition pandoc_fail : Process :=
  fun _ f => (Ok (mkCompleted 1 "boom"), f).

(** A converter that fails on [/docs/a.docx] and succeeds otherwise. *)
Definition pandoc_picky : Process :=
  fun cmd f =>
    match cmd with
    | _ :: i :: _ =>
        if String.eqb i "/docs/a.docx" then pandoc_fail cmd f else pandoc_ok cmd f
    | _ => pandoc_fail cmd f
    end.

Definition docs : Path := PurePath.parse "/docs".

Definition fs_report : FileSystem :=
  list_to_map [(docs, Dir); (docs // "report.docx", File (Raw "docx"))].

Definition fs_blocked : FileSystem :=
  list_to_map [(docs, Dir); (docs // "report.docx", File (Raw "docx"));
               (docs // "report", File (Raw "notes"))].

Definition fs_dotfiles : FileSystem :=
  list_to_map [(docs, Dir); (docs // ".docx", File (Raw "a"));
               (docs // ".docx.docx", File (Raw "b"))].

Definition fs_upper : FileSystem :=
  list_to_map [(docs, Dir); (docs // "X.DOCX", File (Raw "docx"))].

Definition fs_notes : FileSystem :=
  list_to_map [(docs, Dir); (docs // "notes.txt", File (Raw "text"))].

Definition fs_two : FileSystem :=
  list_to_map [(docs, Dir); (docs // "a.docx", File (Raw "a"));
               (docs // "b.docx", File (Raw "b"))].

Definition bundle : Path := PurePath.parse "/out/report".

Definition fs_bundle : FileSystem :=
  list_to_map [(PurePath.parse "/out", Dir); (bundle, Dir);
               (bundle // "report.tex", File (Raw "tex"));
               (bundle // "media", Dir);
               (bundle // "media" // "image1.png", File (Raw "png"));
               (bundle // "media" // "sub", Dir);
               (bundle // "media" // "sub" // "image2.png", File (Raw "png2"))].

Definition fs_dotdot : FileSystem :=
  list_to_map [(docs, Dir); (docs // "..docx", File (Raw "a"));
               (docs // "media.docx", File (Raw "b"))].

Definition fs_texdir_media : FileSystem :=
  list_to_map [(PurePath.parse "/out", Dir); (bundle, Dir);
               (bundle // "report.tex", Dir);
               (bundle // "media", Dir);
               (bundle // "media" // "sub", Dir);
               (bundle // "media" // "image1.png", File (Raw "png"))].

Definition fs_zipdir : FileSystem :=
  list_to_map [(PurePath.parse "/out", Dir); (bundle, Dir);
               (bundle // "report.tex", File (Raw "tex"));
               (bundle // "report.zip", Dir)].

Definition world_of (f : FileSystem) : World := mkWorld f [] [] [].

(** * Properties *)

(** ** Strings *)

Section StringFacts.

#[local] Arguments append (_ _)%_string_scope : simpl nomatch.

Lemma strlen_app (s t : string) :
  String.length (s +:+ t) = String.length s + String.length t.
Proof. induction s as [|a s IH]; simpl; [reflexivity | now rewrite IH]. Qed.

Lemma take_app_length (s t : string) : Str.take (String.length s) (s +:+ t) = s.
Proof. induction s as [|a s IH]; simpl; [now destruct t | now rewrite IH]. Qed.

Lemma drop_app_length (s t : string) : Str.drop (String.length s) (s +:+ t) = t.
Proof. induction s as [|a s IH]; simpl; [now destruct t | assumption]. Qed.

Lemma take_drop (n : nat) (s : string) : Str.take n s +:+ Str.drop n s = s.
Proof.
  revert s. induction n as [|n IH]; intros [|a s]; simpl; try reflexivity.
  now rewrite IH.
Qed.

Lemma rfind_app_some (c : ascii) (s t : string) (j : nat) :
  Str.rfind c t = Some j ->
  Str.rfind c (s +:+ t) = Some (String.length s + j).
Proof.
  intros H. induction s as [|a s IH]; simpl; [assumption | now rewrite IH].
Qed.

Lemma split_no_sep (c : ascii) (s : string) :
  Str.rfind c s = None -> Str.split c s = [s].
Proof.
  induction s as [|a s IH]; simpl; [reflexivity|].
  destruct (Str.rfind c s) eqn:E; [discriminate|].
  destruct (Ascii.eqb a c); [discriminate|].
  intros _. now rewrite IH.
Qed.

Lemma endswith_split (suf s : string) :
  Str.endswith suf s = true -> exists x, s = x +:+ suf.
Proof.
  unfold Str.endswith. intros H. apply andb_true_iff in H as [_ H].
  apply String.eqb_eq in H.
  remember (String.length s - String.length suf) as n eqn:Hn. clear Hn.
  subst suf. exists (Str.take n s). symmetry. apply take_drop.
Qed.

End StringFacts.

(** ** pathlib *)

Section PathFacts.

#[local] Arguments append (_ _)%_string_scope : simpl nomatch.

Lemma has_suffix_docx (x : string) :
  x <> "" -> PurePath.has_suffix (x +:+ ".docx") = Some (String.length x).
Proof.
  intros Hx. unfold PurePath.has_suffix.
  rewrite (rfind_app_some PurePath.dot x ".docx" 0 eq_refl).
  rewrite Nat.add_0_r, strlen_app. simpl String.length.
  assert (0 < String.length x)%nat by (destruct x; simpl; [congruence | lia]).
  destruct (Nat.ltb_spec 0 (String.length x)); [|lia].
  destruct (Nat.ltb_spec (String.length x) (String.length x + 5 - 1)); [|lia].
  reflexivity.
Qed.

Lemma name_snoc (r : Root) (l : list string) (n : string) :
  PurePath.name (mkPath r (l ++ [n])) = n.
Proof. unfold PurePath.name. simpl. apply last_last. Qed.

Lemma parent_snoc (r : Root) (l : list string) (n : string) :
  PurePath.parent (mkPath r (l ++ [n])) = mkPath r l.
Proof. unfold PurePath.parent. simpl. now rewrite removelast_last. Qed.

(** A path whose name is [x.docx] with a non-empty [x] has stem [x] and
    suffix [.docx]. *)
Lemma stem_docx (p : Path) (x : string) :
  PurePath.name p = x +:+ ".docx" -> x <> "" ->
  PurePath.stem p = x /\ PurePath.suffix p = ".docx".
Proof.
  intros Hn Hx. unfold PurePath.stem, PurePath.suffix.
  rewrite Hn, (has_suffix_docx x Hx).
  now rewrite take_app_length, drop_app_length.
Qed.

(** A path named exactly [.docx] is all stem. *)
Lemma stem_dot_docx (p : Path) :
  PurePath.name p = ".docx" ->
  PurePath.stem p = ".docx" /\ PurePath.suffix p = "".
Proof. intros Hn. unfold PurePath.stem, PurePath.suffix. now rewrite Hn. Qed.

Lemma parse_no_slash (s : string) :
  Str.contains PurePath.slash s = false ->
  PurePath.parse s =
    mkPath NoRoot (if PurePath.is_component s then [s] else []).
Proof.
  unfold Str.contains. intros H.
  destruct (Str.rfind PurePath.slash s) eqn:E; [discriminate|].
  unfold PurePath.parse.
  assert (Hr : PurePath.splitroot s = (NoRoot, s)).
  { destruct s as [|a s]; [reflexivity|]. simpl in E |- *.
    destruct (Str.rfind PurePath.slash s); [discriminate|].
    now destruct (Ascii.eqb a PurePath.slash). }
  rewrite Hr, (split_no_sep _ _ E). simpl.
  now destruct (PurePath.is_component s).
Qed.

Lemma joinpath_no_slash (p : Path) (s : string) :
  Str.contains PurePath.slash s = false ->
  p // s = mkPath (root p)
             (parts p ++ (if PurePath.is_component s then [s] else [])).
Proof.
  intros H. unfold PurePath.joinpath. now rewrite (parse_no_slash s H).
Qed.

Lemma contains_app (c : ascii) (s t : string) :
  Str.contains c (s +:+ t) = Str.contains c s || Str.contains c t.
Proof.
  unfold Str.contains. induction s as [|a s IH]; simpl.
  - reflexivity.
  - destruct (Str.rfind c (s +:+ t)), (Str.rfind c s), (Str.rfind c t);
      simpl in *; try discriminate; try reflexivity;
      now destruct (Ascii.eqb a c).
Qed.

Lemma is_component_ext (s ext : string) :
  2 <= String.length ext -> PurePath.is_component (s +:+ ext) = true.
Proof.
  intros H. unfold PurePath.is_component. apply andb_true_iff.
  split; apply negb_true_iff, String.eqb_neq; intros E;
    apply (f_equal String.length) in E; rewrite strlen_app in E;
    simpl in E; lia.
Qed.

(** Joining a directory with [name.ext] for a slash-free name is one
    more component. *)
Lemma joinpath_ext (p : Path) (s ext : string) :
  Str.contains PurePath.slash s = false ->
  Str.contains PurePath.slash ext = false ->
  2 <= String.length ext ->
  p // (s +:+ ext) = mkPath (root p) (parts p ++ [s +:+ ext]).
Proof.
  intros Hs He Hl. rewrite joinpath_no_slash.
  - now rewrite is_component_ext.
  - now rewrite contains_app, Hs, He.
Qed.

End PathFacts.

(** ** The file system *)

Section FsFacts.

Implicit Types (fs : FileSystem) (p q d : Path).

Lemma is_tree_spec fs :
  Fs.is_tree fs = true <->
  forall q n, fs !! q = Some n -> Fs.is_dir fs (PurePath.parent q) = true.
Proof.
  unfold Fs.is_tree. rewrite forallb_forall. split.
  - intros H q n Hq. apply (H (q, n)).
    apply list_elem_of_In, elem_of_map_to_list. exact Hq.
  - intros H [q n] Hin. apply list_elem_of_In, elem_of_map_to_list in Hin.
    simpl. eapply H. exact Hin.
Qed.

Lemma valid_names_spec fs :
  Fs.valid_names fs = true <->
  forall q n, fs !! q = Some n -> forallb Fs.valid_name (parts q) = true.
Proof.
  unfold Fs.valid_names. rewrite forallb_forall. split.
  - intros H q n Hq. apply (H (q, n)).
    apply list_elem_of_In, elem_of_map_to_list. exact Hq.
  - intros H [q n] Hin. apply list_elem_of_In, elem_of_map_to_list in Hin.
    simpl. eapply H. exact Hin.
Qed.

Lemma stat_insert_eq fs p n :
  parts p <> [] -> Fs.stat (<[p := n]> fs) p = Some n.
Proof.
  unfold Fs.stat. destruct (parts p); [congruence|].
  intros _. apply lookup_insert_eq.
Qed.

Lemma stat_insert_ne fs p q n :
  p <> q -> Fs.stat (<[p := n]> fs) q = Fs.stat fs q.
Proof.
  unfold Fs.stat. intros H. destruct (parts q); [reflexivity|].
  now apply lookup_insert_ne.
Qed.

Lemma stat_absent_parts fs p : Fs.stat fs p = None -> parts p <> [].
Proof. unfold Fs.stat. destruct (parts p); congruence. Qed.

Lemma is_dir_exists fs p : Fs.is_dir fs p = true -> Fs.exists_ fs p = true.
Proof. unfold Fs.is_dir, Fs.exists_. now destruct (Fs.stat fs p) as [[]|]. Qed.

(** [os.mkdir]: what success means, and that failure changes nothing. *)
Lemma os_mkdir_ok fs p fs' :
  Fs.os_mkdir p fs = (Ok tt, fs') ->
  fs' = <[p := Dir]> fs /\ Fs.stat fs p = None
  /\ Fs.is_dir fs (PurePath.parent p) = true.
Proof.
  unfold Fs.os_mkdir, Fs.resolve_parent, Fs.is_dir.
  destruct (Fs.stat fs p); [discriminate|].
  destruct (Fs.stat fs (PurePath.parent p)) as [[]|].
  - discriminate.
  - intros [= <-]. auto.
  - destruct (existsb _ _); discriminate.
Qed.

Lemma os_mkdir_raise fs p e fs' :
  Fs.os_mkdir p fs = (Raise e, fs') -> fs' = fs.
Proof.
  unfold Fs.os_mkdir. destruct (Fs.stat fs p); [now intros [= _ <-]|].
  destruct (Fs.resolve_parent fs p); [discriminate | now intros [= _ <-]].
Qed.

Lemma mkdir_exist_ok_ok fs p fs' :
  Fs.mkdir_exist_ok p fs = (Ok tt, fs') ->
  (fs' = fs /\ Fs.is_dir fs p = true)
  \/ (fs' = <[p := Dir]> fs /\ Fs.stat fs p = None
      /\ Fs.is_dir fs (PurePath.parent p) = true).
Proof.
  unfold Fs.mkdir_exist_ok.
  destruct (Fs.os_mkdir p fs) as [[[]|e] f1] eqn:E.
  - intros [= <-]. right. now apply os_mkdir_ok.
  - apply os_mkdir_raise in E as ->.
    destruct (kind e); try discriminate;
      (destruct (Fs.is_dir fs p) eqn:D; [intros [= <-]; now left | discriminate]).
Qed.

Lemma extends_refl fs : extends fs fs.
Proof. split; auto. Qed.

Lemma extends_trans fs1 fs2 fs3 :
  extends fs1 fs2 -> extends fs2 fs3 -> extends fs1 fs3.
Proof.
  intros [A1 B1] [A2 B2]. split; [auto|].
  intros q n H. destruct (B2 q n H) as [H2|]; [|now right]. now apply B1.
Qed.

Lemma extends_insert_dir fs p :
  Fs.stat fs p = None -> extends fs (<[p := Dir]> fs).
Proof.
  intros Hp. pose proof (stat_absent_parts _ _ Hp) as Hne.
  assert (Hl : fs !! p = None).
  { unfold Fs.stat in Hp. destruct (parts p); [congruence | exact Hp]. }
  split; intros q n H.
  - destruct (decide (p = q)) as [->|Hpq]; [congruence|].
    now rewrite lookup_insert_ne.
  - destruct (decide (p = q)) as [->|Hpq].
    + rewrite lookup_insert_eq in H. right. congruence.
    + rewrite lookup_insert_ne in H by assumption. now left.
Qed.

Lemma is_tree_insert_dir fs p :
  Fs.is_tree fs = true -> Fs.stat fs p = None ->
  Fs.is_dir fs (PurePath.parent p) = true ->
  Fs.is_tree (<[p := Dir]> fs) = true.
Proof.
  rewrite !is_tree_spec. intros Ht Hp Hpar q n Hq.
  assert (Hkeep : forall a, Fs.is_dir fs a = true ->
                            Fs.is_dir (<[p := Dir]> fs) a = true).
  { intros a Ha. unfold Fs.is_dir in *.
    destruct (decide (p = a)) as [->|Hne].
    - now rewrite Hp in Ha.
    - now rewrite stat_insert_ne. }
  destruct (decide (p = q)) as [->|Hpq].
  - now apply Hkeep.
  - rewrite lookup_insert_ne in Hq by assumption. apply Hkeep. eauto.
Qed.

Lemma mkdir_ok_cases fs p fs' :
  (fs' = fs /\ Fs.is_dir fs p = true)
  \/ (fs' = <[p := Dir]> fs /\ Fs.stat fs p = None
      /\ Fs.is_dir fs (PurePath.parent p) = true) ->
  Fs.is_dir fs' p = true /\ extends fs fs'
  /\ (Fs.is_tree fs = true -> Fs.is_tree fs' = true).
Proof.
  intros [[-> Hd] | (-> & Hn & Hpar)].
  - split; [assumption|]. split; [apply extends_refl | auto].
  - split; [|split].
    + unfold Fs.is_dir. rewrite stat_insert_eq; [reflexivity|].
      eapply stat_absent_parts; eassumption.
    + now apply extends_insert_dir.
    + intros Ht. now apply is_tree_insert_dir.
Qed.

(** [mkdir(parents=True, exist_ok=True)]: on success the path is a
    directory, nothing that existed is touched, and a tree stays a
    tree. *)
Lemma mkdir_rev_ok r rp : forall fs fs',
  Fs.mkdir_rev r rp fs = (Ok tt, fs') ->
  Fs.is_dir fs' (mkPath r (rev rp)) = true /\ extends fs fs'
  /\ (Fs.is_tree fs = true -> Fs.is_tree fs' = true).
Proof.
  induction rp as [|x up IH]; intros fs fs' H; cbn [Fs.mkdir_rev] in H.
  - destruct (Fs.os_mkdir _ fs) as [[[]|e] f1] eqn:E.
    + injection H as <-. apply mkdir_ok_cases. right. now apply os_mkdir_ok.
    + apply os_mkdir_raise in E as ->.
      destruct (kind e); try discriminate;
        (destruct (Fs.is_dir fs _) eqn:D; [|discriminate]);
        injection H as <-; apply mkdir_ok_cases; now left.
  - destruct (Fs.os_mkdir _ fs) as [[[]|e] f1] eqn:E.
    + injection H as <-. apply mkdir_ok_cases. right. now apply os_mkdir_ok.
    + apply os_mkdir_raise in E as ->.
      destruct (kind e);
        try (destruct (Fs.is_dir fs _) eqn:D; [|discriminate];
             injection H as <-; apply mkdir_ok_cases; now left).
      destruct (Fs.mkdir_rev r up fs) as [[[]|e1] fs1] eqn:E1; [|discriminate].
      destruct (IH _ _ E1) as (_ & Hext1 & Ht1).
      apply mkdir_exist_ok_ok, mkdir_ok_cases in H as (Hd & Hext & Ht).
      split; [assumption|]. split; [eapply extends_trans; eassumption | auto].
Qed.

Lemma mkdir_parents_ok fs p fs' :
  Fs.mkdir_parents p fs = (Ok tt, fs') ->
  Fs.is_dir fs' p = true /\ extends fs fs'
  /\ (Fs.is_tree fs = true -> Fs.is_tree fs' = true).
Proof.
  unfold Fs.mkdir_parents. intros H. apply mkdir_rev_ok in H.
  rewrite rev_involutive in H. now destruct p.
Qed.

(** In a tree, whatever exists has directories all the way up. *)
Lemma tree_ancestors_rev fs r rp :
  Fs.is_tree fs = true ->
  Fs.exists_ fs (mkPath r (rev rp)) = true ->
  forall a, In a (Fs.ancestors_rev r rp) -> Fs.is_dir fs a = true.
Proof.
  intros Ht. rewrite is_tree_spec in Ht.
  induction rp as [|x up IH]; intros Hex a Hin; [destruct Hin|].
  assert (Hup : Fs.is_dir fs (mkPath r (rev up)) = true).
  { unfold Fs.exists_, Fs.stat in Hex. cbn [parts rev] in Hex.
    destruct (rev up ++ [x]) eqn:El; [now destruct (rev up)|].
    rewrite <- El in Hex.
    destruct (fs !! mkPath r (rev up ++ [x])) as [n|] eqn:Hl; [|discriminate].
    specialize (Ht _ _ Hl). now rewrite parent_snoc in Ht. }
  destruct Hin as [<-|Hin]; [assumption|].
  apply IH; [now apply is_dir_exists | assumption].
Qed.

Lemma tree_ancestors fs p :
  Fs.is_tree fs = true -> Fs.exists_ fs p = true ->
  forall a, In a (Fs.ancestors p) -> Fs.is_dir fs a = true.
Proof.
  intros Ht Hex. unfold Fs.ancestors. apply tree_ancestors_rev; [assumption|].
  rewrite rev_involutive. now destruct p.
Qed.

Lemma NoDup_map_filter {A B} (g : A -> B) (f : A -> bool) (l : list A) :
  List.NoDup (List.map g l) -> List.NoDup (List.map g (List.filter f l)).
Proof.
  induction l as [|a l IH]; simpl; intros H; [constructor|].
  apply List.NoDup_cons_iff in H as [Hn Hd]. destruct (f a); simpl; [|auto].
  apply List.NoDup_cons_iff. split; [|auto].
  intros Hin. apply Hn. apply in_map_iff in Hin as (x & Hx & Hin).
  apply in_map_iff. exists x. split; [assumption|].
  now apply filter_In in Hin.
Qed.

Lemma NoDup_keys fs : List.NoDup (List.map fst (map_to_list fs)).
Proof. apply NoDup_ListNoDup. exact (NoDup_fst_map_to_list fs). Qed.

Lemma In_keys fs q : In q (List.map fst (map_to_list fs)) <-> exists n, fs !! q = Some n.
Proof.
  rewrite in_map_iff. split.
  - intros ([q' n] & <- & Hin). exists n.
    now apply list_elem_of_In, elem_of_map_to_list in Hin.
  - intros [n Hn]. exists (q, n). split; [reflexivity|].
    now apply list_elem_of_In, elem_of_map_to_list.
Qed.

(** [glob('*.docx')] yields entries of the directory, once each, whose
    name ends in [.docx]. *)
Lemma glob_docx_In fs d q :
  In q (Fs.glob_docx fs d) ->
  Fs.is_dir fs d = true /\ (exists n, fs !! q = Some n)
  /\ q = mkPath (root d) (parts d ++ [PurePath.name q])
  /\ Str.endswith ".docx" (PurePath.name q) = true.
Proof.
  unfold Fs.glob_docx, Fs.scandir, Fs.fnmatch_star_docx.
  destruct (Fs.is_dir fs d); [|intros []].
  intros H. apply filter_In in H as [H Hm].
  apply in_map_iff in H as ([q' n] & <- & H). simpl in *.
  apply filter_In in H as [H Hc].
  apply list_elem_of_In, elem_of_map_to_list in H.
  unfold Fs.is_child_of in Hc. simpl in Hc.
  apply andb_true_iff in Hc as [Hc H3]. apply andb_true_iff in Hc as [H1 H2].
  apply bool_decide_eq_true in H1, H2, H3.
  split; [reflexivity|]. split; [eauto|]. split; [|assumption].
  destruct q' as [r l]. simpl in *. subst r. f_equal.
  rewrite <- H3. unfold PurePath.name. simpl.
  now apply app_removelast_last.
Qed.

Lemma glob_docx_NoDup fs d : List.NoDup (Fs.glob_docx fs d).
Proof.
  unfold Fs.glob_docx, Fs.scandir. destruct (Fs.is_dir fs d); [|constructor].
  apply List.NoDup_filter, NoDup_map_filter, NoDup_keys.
Qed.

Lemma rglob_star_In fs d q :
  In q (Fs.rglob_star fs d) <->
  Fs.is_dir fs d = true /\ (exists n, fs !! q = Some n)
  /\ Fs.is_below d q = true.
Proof.
  unfold Fs.rglob_star. destruct (Fs.is_dir fs d).
  - rewrite filter_In, In_keys. tauto.
  - split; [intros [] | intros [? _]; discriminate].
Qed.

End FsFacts.

(** ** The script, step by step *)

Section ProgramFacts.

Variable run : Process.

Lemma ZipFile_write_file (c : Z) (zf : list ZipInfo) (q : Path)
    (arcname : string) (w : World) :
  Fs.is_file (fs w) q = true ->
  ZipFile_write c zf q arcname w =
    (Ok (zf ++ [mkZipInfo arcname c (Fs.read (fs w) q)]), w).
Proof.
  unfold ZipFile_write, Fs.is_file, Fs.read.
  now destruct (Fs.stat (fs w) q) as [[d|]|].
Qed.

Lemma add_media_run (media_dir : Path) (files : list Path) :
  forall (zf : list ZipInfo) (w : World),
    add_media media_dir files zf w =
      (Ok (zf ++ List.map (media_member (fs w) media_dir)
                          (List.filter (Fs.is_file (fs w)) files)), w).
Proof.
  induction files as [|q files IH]; intros zf w; simpl.
  - unfold ret. now rewrite List.app_nil_r.
  - unfold bind at 1. unfold Path_is_file at 1.
    destruct (Fs.is_file (fs w) q) eqn:E.
    + unfold bind at 1. rewrite (ZipFile_write_file _ _ _ _ _ E).
      rewrite IH. simpl. now rewrite <- List.app_assoc.
    + apply IH.
Qed.

Lemma zip_body_run (doc_dir : Path) (doc_name : string) (w : World) :
  zip_body doc_dir doc_name [] w =
    (Ok (archive_members (fs w) doc_dir doc_name), w).
Proof.
  unfold zip_body, archive_members, tex_members, media_members.
  unfold bind at 1. unfold Path_exists at 1.
  unfold Fs.exists_ at 1.
  destruct (Fs.stat (fs w) (doc_dir // (doc_name +:+ ".tex"))) as [[d|]|] eqn:E;
    unfold bind at 1; unfold ZipFile_write, ret; try rewrite E;
    unfold bind at 1; unfold Path_exists at 1;
    (destruct (Fs.exists_ (fs w) (doc_dir // "media"));
     [unfold bind at 1; unfold Path_rglob_star; now rewrite add_media_run
     | now rewrite List.app_nil_r]).
Qed.

Lemma create_zip_archive_run (doc_dir : Path) (doc_name : string) (w : World) :
  create_zip_archive doc_dir doc_name w =
    let zip_path := doc_dir // (doc_name +:+ ".zip") in
    match Fs.open_w zip_path (fs w) with
    | (Raise e, f1) => (Raise e, set_fs w f1)
    | (Ok _, f1) =>
        (Ok zip_path,
         set_fs w (<[zip_path := File (Zip (archive_members f1 doc_dir doc_name))]> f1))
    end.
Proof.
  unfold create_zip_archive, with_ZipFile. cbv zeta.
  unfold bind at 1. unfold bind at 1. unfold lift_fs.
  destruct (Fs.open_w _ (fs w)) as [[[]|e] f1]; [|reflexivity].
  unfold bind at 1. rewrite zip_body_run. reflexivity.
Qed.

Lemma convert_missing i o sa em w :
  Fs.exists_ (fs w) i = false ->
  convert_docx_to_latex run i o sa em w =
    (Raise (mkExn FileNotFoundError
              ("Input file not found: " +:+ PurePath.str i)), w).
Proof.
  intros H. unfold convert_docx_to_latex, bind, Path_exists. now rewrite H.
Qed.

Lemma convert_bad_suffix i o sa em w :
  Fs.exists_ (fs w) i = true ->
  String.eqb (Str.lower (PurePath.suffix i)) ".docx" = false ->
  convert_docx_to_latex run i o sa em w =
    (Raise (mkExn ValueError
              ("Input file must be .docx format: " +:+ PurePath.str i)), w).
Proof.
  intros H1 H2. unfold convert_docx_to_latex, bind, Path_exists.
  now rewrite H1, H2.
Qed.

Lemma convert_mkdir_fail i o sa em w e f1 :
  Fs.exists_ (fs w) i = true ->
  String.eqb (Str.lower (PurePath.suffix i)) ".docx" = true ->
  Fs.mkdir_parents (doc_dir_of i o) (fs w) = (Raise e, f1) ->
  convert_docx_to_latex run i o sa em w = (Raise e, set_fs w f1).
Proof.
  intros H1 H2 H3.
  unfold convert_docx_to_latex, bind, Path_exists, Path_mkdir, lift_fs.
  cbv beta iota zeta. rewrite H1, H2. cbn [negb]. cbv beta iota.
  now rewrite H3.
Qed.

(** Past validation and [mkdir], the converter is started; what follows
    depends on how it ends. *)
Lemma convert_run i o sa em w f1 :
  Fs.exists_ (fs w) i = true ->
  String.eqb (Str.lower (PurePath.suffix i)) ".docx" = true ->
  Fs.mkdir_parents (doc_dir_of i o) (fs w) = (Ok tt, f1) ->
  let cmd := pandoc_cmd i (doc_dir_of i o) (output_path_of i o) sa em in
  let line := converting_line i o in
  convert_docx_to_latex run i o sa em w =
    match run cmd f1 with
    | (Raise e, f2) => (Raise e, world_after_run w f2 line cmd)
    | (Ok cp, f2) =>
        let w2 := world_after_run w f2 line cmd in
        if Z.eqb (returncode cp) 0 then
          match create_zip_archive (doc_dir_of i o) (PurePath.stem i)
                  (snd (print ("Successfully created: "
                               +:+ PurePath.str (output_path_of i o)) w2)) with
          | (Ok z, w3) =>
              (Ok (output_path_of i o),
               snd (print ("Created archive: " +:+ PurePath.str z) w3))
          | (Raise e, w3) => (Raise e, w3)
          end
        else
          (Raise (mkExn RuntimeError ("Pandoc error: " +:+ proc_stderr cp)), w2)
    end.
Proof.
  intros H1 H2 H3 cmd line.
  unfold convert_docx_to_latex. cbv zeta.
  unfold bind at 1. unfold Path_exists at 1. cbv beta iota.
  rewrite H1, H2. cbn [negb]. cbv beta iota.
  unfold bind at 1. unfold Path_mkdir, lift_fs. rewrite H3.
  unfold bind at 1. unfold print at 1.
  unfold bind at 1. unfold subprocess_run. cbn [fs set_fs stdout stderr spawned].
  fold (output_path_of i o). fold cmd.
  destruct (run cmd f1) as [[cp|e] f2]; [|reflexivity].
  destruct (Z.eqb (returncode cp) 0); cbn [negb]; [|reflexivity].
  unfold bind at 1. unfold print at 1.
  unfold bind at 1.
  unfold world_after_run, line, converting_line. cbn [snd].
  cbn [fs set_fs stdout stderr spawned].
  destruct (create_zip_archive _ _ _) as [[z|e] w3]; reflexivity.
Qed.

(** A conversion that returns went through every step. *)
Lemma convert_ok_inv i o sa em w r w' :
  convert_docx_to_latex run i o sa em w = (Ok r, w') ->
  Fs.exists_ (fs w) i = true
  /\ String.eqb (Str.lower (PurePath.suffix i)) ".docx" = true
  /\ r = output_path_of i o
  /\ exists f1 cp f2 f3,
      Fs.mkdir_parents (doc_dir_of i o) (fs w) = (Ok tt, f1)
      /\ run (pandoc_cmd i (doc_dir_of i o) (output_path_of i o) sa em) f1
           = (Ok cp, f2)
      /\ returncode cp = 0%Z
      /\ Fs.open_w (doc_dir_of i o // (PurePath.stem i +:+ ".zip")) f2 = (Ok tt, f3)
      /\ fs w' = <[doc_dir_of i o // (PurePath.stem i +:+ ".zip") :=
                    File (Zip (archive_members f3 (doc_dir_of i o) (PurePath.stem i)))]> f3.
Proof.
  intros H.
  destruct (Fs.exists_ (fs w) i) eqn:H1;
    [|rewrite convert_missing in H by assumption; discriminate].
  destruct (String.eqb (Str.lower (PurePath.suffix i)) ".docx") eqn:H2;
    [|rewrite convert_bad_suffix in H by assumption; discriminate].
  destruct (Fs.mkdir_parents (doc_dir_of i o) (fs w)) as [[[]|e] f1] eqn:H3;
    [|rewrite (convert_mkdir_fail _ _ _ _ _ _ _ H1 H2 H3) in H; discriminate].
  rewrite (convert_run _ _ _ _ _ _ H1 H2 H3) in H. cbv zeta in H.
  destruct (run _ f1) as [[cp|e] f2] eqn:H4; [|discriminate].
  destruct (Z.eqb (returncode cp) 0) eqn:H5; [|discriminate].
  rewrite create_zip_archive_run in H. cbv zeta in H.
  unfold world_after_run in H.
  cbn [print snd fs set_fs stdout stderr spawned] in H.
  destruct (Fs.open_w _ f2) as [[[]|e] f3] eqn:H6; [|discriminate].
  injection H as <- <-.
  repeat split; try reflexivity.
  exists f1, cp, f2, f3. repeat split; try assumption.
  now apply Z.eqb_eq.
Qed.

Lemma create_zip_archive_stderr d n w :
  stderr (snd (create_zip_archive d n w)) = stderr w
  /\ spawned (snd (create_zip_archive d n w)) = spawned w.
Proof.
  rewrite create_zip_archive_run. cbv zeta.
  now destruct (Fs.open_w _ (fs w)) as [[[]|e] f1].
Qed.

(** A conversion writes nothing to the diagnostic stream. *)
Lemma convert_stderr i o sa em w :
  stderr (snd (convert_docx_to_latex run i o sa em w)) = stderr w.
Proof.
  destruct (Fs.exists_ (fs w) i) eqn:H1;
    [|now rewrite convert_missing].
  destruct (String.eqb (Str.lower (PurePath.suffix i)) ".docx") eqn:H2;
    [|now rewrite convert_bad_suffix].
  destruct (Fs.mkdir_parents (doc_dir_of i o) (fs w)) as [[[]|e] f1] eqn:H3;
    [|now rewrite (convert_mkdir_fail _ _ _ _ _ _ _ H1 H2 H3)].
  rewrite (convert_run _ _ _ _ _ _ H1 H2 H3). cbv zeta.
  destruct (run _ f1) as [[cp|e] f2]; [|reflexivity].
  destruct (Z.eqb (returncode cp) 0); [|reflexivity].
  match goal with
  | |- context [create_zip_archive ?d ?n ?w0] =>
      pose proof (create_zip_archive_stderr d n w0) as [Hs _];
      destruct (create_zip_archive d n w0) as [[z|e] w3]
  end; simpl in *; assumption.
Qed.

(** The loop of [batch_convert] collects the successes of the items in
    order and never raises. *)
Lemma batch_loop_run files out sa em :
  forall acc w,
    batch_loop run files out sa em acc w =
      (Ok (acc ++ successes (fst (run_items run files out sa em w))),
       snd (run_items run files out sa em w)).
Proof.
  induction files as [|f files IH]; intros acc w.
  - simpl. unfold ret. now rewrite List.app_nil_r.
  - cbn [batch_loop run_items].
    unfold bind at 1. unfold try_except. unfold bind at 1.
    destruct (convert_docx_to_latex run f (Some out) sa em w) as [[r|e] w1].
    + unfold ret at 1. cbv beta iota. rewrite IH.
      destruct (run_items run files out sa em w1) as [rs w3].
      cbn [fst snd successes]. now rewrite <- List.app_assoc.
    + unfold bind at 1. unfold eprint at 1. unfold ret at 1. cbv beta iota.
      rewrite IH. unfold error_line, eprint. cbn [snd].
      now destruct (run_items run files out sa em _) as [rs w3].
Qed.

Lemma run_items_files files out sa em :
  forall w, List.map fst (fst (run_items run files out sa em w)) = files.
Proof.
  induction files as [|f files IH]; intros w; [reflexivity|].
  cbn [run_items].
  destruct (convert_docx_to_latex run f (Some out) sa em w) as [r w1].
  specialize (IH match r with
                 | Ok _ => w1
                 | Raise e => snd (eprint (error_line f e) w1)
                 end).
  destruct (run_items run files out sa em _) as [rs w3].
  simpl in *. now rewrite IH.
Qed.

Lemma successes_failures_length (l : list (Path * outcome Path)) :
  length (successes l) + length (failures l) = length l.
Proof.
  induction l as [|[f [r|e]] l IH]; simpl; lia.
Qed.

(** The diagnostic stream gains one line per failed item, in order. *)
Lemma run_items_stderr files out sa em :
  forall w,
    stderr (snd (run_items run files out sa em w)) =
      stderr w ++ List.map (fun fe => error_line (fst fe) (snd fe))
                           (failures (fst (run_items run files out sa em w))).
Proof.
  induction files as [|f files IH]; intros w.
  - simpl. now rewrite List.app_nil_r.
  - cbn [run_items].
    pose proof (convert_stderr f (Some out) sa em w) as Hs.
    destruct (convert_docx_to_latex run f (Some out) sa em w) as [r w1].
    simpl in Hs.
    specialize (IH match r with
                   | Ok _ => w1
                   | Raise e => snd (eprint (error_line f e) w1)
                   end).
    destruct (run_items run files out sa em _) as [rs w3].
    cbn [fst snd] in *. rewrite IH.
    destruct r as [r|e]; cbn [failures List.map fst snd eprint stderr].
    + now rewrite Hs.
    + rewrite Hs. now rewrite <- List.app_assoc.
Qed.

(** Every success of a batch is the output path of its item. *)
Lemma run_items_successes files out sa em :
  forall w f r,
    In (f, Ok r) (fst (run_items run files out sa em w)) ->
    In f files /\ r = output_path_of f (Some out).
Proof.
  induction files as [|f0 files IH]; intros w f r Hin; [destruct Hin|].
  cbn [run_items] in Hin.
  destruct (convert_docx_to_latex run f0 (Some out) sa em w) as [r0 w1] eqn:E.
  destruct (run_items run files out sa em _) as [rs w3] eqn:E2.
  cbn [fst] in Hin. destruct Hin as [Heq|Hin].
  - injection Heq as -> ->. split; [now left|].
    now apply convert_ok_inv in E.
  - assert (Hrs : rs = fst (run_items run files out sa em
                    match r0 with
                    | Ok _ => w1
                    | Raise e => snd (eprint (error_line f0 e) w1)
                    end)) by now rewrite E2.
    rewrite Hrs in Hin. apply IH in Hin as [? ?]. split; [now right | assumption].
Qed.

Lemma batch_convert_run d o sa em w f1 :
  Fs.is_dir (fs w) d = true ->
  let out := match o with Some x => x | None => d end in
  Fs.mkdir_parents out (fs w) = (Ok tt, f1) ->
  batch_convert run d o sa em w =
    match Fs.glob_docx f1 d with
    | [] =>
        (Ok [], snd (print ("No .docx files found in " +:+ PurePath.str d)
                           (set_fs w f1)))
    | files =>
        let w2 := snd (print ("Found " +:+ pretty (length files)
                              +:+ " Word document(s)" +:+ newline)
                             (set_fs w f1)) in
        (Ok (successes (fst (run_items run files out sa em w2))),
         snd (run_items run files out sa em w2))
    end.
Proof.
  intros Hd out Hm. unfold batch_convert. cbv zeta.
  unfold bind at 1. unfold Path_is_dir at 1. cbv beta iota.
  rewrite Hd. cbn [negb]. cbv beta iota.
  unfold bind at 1. unfold Path_mkdir, lift_fs. fold out. rewrite Hm.
  unfold bind at 1. unfold Path_glob_docx at 1. cbv beta iota.
  cbn [fs set_fs].
  destruct (Fs.glob_docx f1 d) as [|f files] eqn:G.
  - reflexivity.
  - unfold bind at 1. unfold print at 1. cbv beta iota.
    now rewrite batch_loop_run.
Qed.

Lemma batch_convert_mkdir_fail d o sa em w e f1 :
  Fs.is_dir (fs w) d = true ->
  Fs.mkdir_parents (match o with Some x => x | None => d end) (fs w)
    = (Raise e, f1) ->
  batch_convert run d o sa em w = (Raise e, set_fs w f1).
Proof.
  intros Hd Hm. unfold batch_convert. cbv zeta.
  unfold bind at 1. unfold Path_is_dir at 1. cbv beta iota.
  rewrite Hd. cbn [negb]. cbv beta iota.
  unfold bind at 1. unfold Path_mkdir, lift_fs. now rewrite Hm.
Qed.

Lemma open_w_raise_kind p f e f' :
  Fs.open_w p f = (Raise e, f') ->
  f' = f /\ kind e <> RuntimeError /\ kind e <> ValueError.
Proof.
  unfold Fs.open_w, Fs.resolve_parent.
  destruct (Fs.stat f p) as [[d|]|].
  - discriminate.
  - intros [= <- <-]. now repeat split.
  - destruct (Fs.stat f (PurePath.parent p)) as [[d|]|].
    + intros [= <- <-]. now repeat split.
    + discriminate.
    + destruct (existsb _ _); intros [= <- <-]; now repeat split.
Qed.

(** Once the converter has been started, it has been started once, with
    the command line of [pandoc_cmd]. *)
Lemma convert_spawned i o sa em w f1 :
  Fs.exists_ (fs w) i = true ->
  String.eqb (Str.lower (PurePath.suffix i)) ".docx" = true ->
  Fs.mkdir_parents (doc_dir_of i o) (fs w) = (Ok tt, f1) ->
  spawned (snd (convert_docx_to_latex run i o sa em w)) =
    spawned w ++ [pandoc_cmd i (doc_dir_of i o) (output_path_of i o) sa em].
Proof.
  intros H1 H2 H3. rewrite (convert_run _ _ _ _ _ _ H1 H2 H3). cbv zeta.
  destruct (run _ f1) as [[cp|e] f2]; [|reflexivity].
  destruct (Z.eqb (returncode cp) 0); [|reflexivity].
  match goal with
  | |- context [create_zip_archive ?d ?n ?w0] =>
      pose proof (create_zip_archive_stderr d n w0) as [_ Hs];
      destruct (create_zip_archive d n w0) as [[z|e] w3]
  end; simpl in *; assumption.
Qed.

End ProgramFacts.

(** ** The paths of a bundle *)

Section BundleFacts.

Variables (doc_dir : Path) (doc_name : string).
Hypothesis no_slash : Str.contains PurePath.slash doc_name = false.

Lemma zip_path_parts :
  doc_dir // (doc_name +:+ ".zip")
  = mkPath (root doc_dir) (parts doc_dir ++ [doc_name +:+ ".zip"]).
Proof. apply joinpath_ext; [assumption | reflexivity | simpl; lia]. Qed.

Lemma tex_path_parts :
  doc_dir // (doc_name +:+ ".tex")
  = mkPath (root doc_dir) (parts doc_dir ++ [doc_name +:+ ".tex"]).
Proof. apply joinpath_ext; [assumption | reflexivity | simpl; lia]. Qed.

Lemma media_path_parts :
  doc_dir // "media" = mkPath (root doc_dir) (parts doc_dir ++ ["media"]).
Proof. now rewrite joinpath_no_slash. Qed.

Lemma zip_parent : PurePath.parent (doc_dir // (doc_name +:+ ".zip")) = doc_dir.
Proof. rewrite zip_path_parts, parent_snoc. now destruct doc_dir. Qed.

Lemma zip_not_tex :
  doc_dir // (doc_name +:+ ".zip") <> doc_dir // (doc_name +:+ ".tex").
Proof.
  rewrite zip_path_parts, tex_path_parts. intros [= H].
  apply app_inv_head in H. injection H as H.
  apply (f_equal (Str.drop (String.length doc_name))) in H.
  rewrite !drop_app_length in H. discriminate.
Qed.

Lemma zip_not_media :
  doc_dir // (doc_name +:+ ".zip") <> doc_dir // "media".
Proof.
  rewrite zip_path_parts, media_path_parts. intros [= H].
  apply app_inv_head in H. injection H as H.
  assert (Hl : String.length doc_name = 1).
  { apply (f_equal String.length) in H. rewrite strlen_app in H.
    simpl in H. lia. }
  apply (f_equal (Str.drop (String.length doc_name))) in H.
  rewrite drop_app_length, Hl in H. discriminate.
Qed.

Lemma zip_not_below_media q :
  Fs.is_below (doc_dir // "media") q = true ->
  doc_dir // (doc_name +:+ ".zip") <> q.
Proof.
  intros Hb <-. revert Hb. rewrite zip_path_parts, media_path_parts.
  unfold Fs.is_below. cbn [root parts].
  rewrite !List.length_app. cbn [length].
  intros H. apply andb_true_iff in H as [_ H]. apply Nat.ltb_lt in H. lia.
Qed.

End BundleFacts.

(** ** Enumerated files and their bundles *)

Section BatchFacts.

Lemma glob_docx_name (f : FileSystem) (d q : Path) :
  In q (Fs.glob_docx f d) -> exists x, PurePath.name q = x +:+ ".docx".
Proof.
  intros H. apply glob_docx_In in H as (_ & _ & _ & H).
  now apply endswith_split.
Qed.

(** An enumerated file passes the extension check unless it is named
    exactly [.docx]; when it passes, its stem is its name without the
    extension. *)
Lemma glob_docx_stem (f : FileSystem) (d q : Path) :
  In q (Fs.glob_docx f d) ->
  Str.lower (PurePath.suffix q) = ".docx" ->
  PurePath.stem q <> ""
  /\ PurePath.name q = PurePath.stem q +:+ ".docx".
Proof.
  intros Hin Hs. destruct (glob_docx_name _ _ _ Hin) as [x Hx].
  destruct x as [|a x].
  - apply stem_dot_docx in Hx as [_ Hx]. rewrite Hx in Hs. discriminate.
  - destruct (stem_docx q (String a x) Hx) as [-> _]; [discriminate|].
    split; [discriminate | assumption].
Qed.

Lemma glob_docx_valid_name (f : FileSystem) (d q : Path) :
  Fs.valid_names f = true -> In q (Fs.glob_docx f d) ->
  Str.contains PurePath.slash (PurePath.name q) = false.
Proof.
  intros Hv Hin. apply glob_docx_In in Hin as (_ & [n Hn] & Hq & _).
  rewrite valid_names_spec in Hv. specialize (Hv _ _ Hn).
  rewrite Hq in Hv. cbn [parts] in Hv.
  rewrite forallb_app in Hv. apply andb_true_iff in Hv as [_ Hv].
  cbn [forallb] in Hv. rewrite andb_true_r in Hv.
  unfold Fs.valid_name in Hv. apply andb_true_iff in Hv as [_ Hv].
  now apply negb_true_iff in Hv.
Qed.

End BatchFacts.

(** ** Evaluating the samples *)

Section SampleFacts.

(** A run is known once its result is: the witnesses below evaluate the
    result and leave the world as it is computed. *)
Lemma pair_fst_snd {A B : Type} (x : A * B) (a : A) :
  fst x = a -> x = (a, snd x).
Proof. intros <-. now destruct x. Qed.

Lemma pandoc_fail_run (cmd : list string) (f : FileSystem) :
  pandoc_fail cmd f = (Ok (mkCompleted 1 "boom"), f).
Proof. reflexivity. Qed.

End SampleFacts.

(** ** The entry point *)

Section MainFacts.

Variable run : Process.

Lemma main_exit (args : Args) (w : World) :
  fst (main run args w) = if is_ok (fst (main_try run args w)) then 0%Z else 1%Z.
Proof.
  unfold main. now destruct (main_try run args w) as [[[]|e] w'].
Qed.

Lemma main_try_single (args : Args) (w : World) :
  Fs.is_dir (fs w) (input_path_of args) = false ->
  is_ok (fst (main_try run args w)) =
    is_ok (fst (convert_docx_to_latex run (input_path_of args)
                  (output_path_arg args) (negb (no_standalone args))
                  (negb (no_media args)) w)).
Proof.
  intros H. unfold main_try. cbv zeta.
  unfold bind at 1. unfold Path_is_dir at 1. cbv beta iota. rewrite H.
  unfold bind at 1.
  now destruct (convert_docx_to_latex run _ _ _ _ w) as [[r|e] w'].
Qed.

Lemma main_try_batch (args : Args) (w : World) :
  Fs.is_dir (fs w) (input_path_of args) = true ->
  is_ok (fst (main_try run args w)) =
    is_ok (fst (batch_convert run (input_path_of args)
                  (output_path_arg args) (negb (no_standalone args))
                  (negb (no_media args)) w)).
Proof.
  intros H. unfold main_try. cbv zeta.
  unfold bind at 1. unfold Path_is_dir at 1. cbv beta iota. rewrite H.
  unfold bind at 1.
  now destruct (batch_convert run _ _ _ _ w) as [[r|e] w'].
Qed.

(** A batch completes exactly when its output root can be made; what
    happens to the items does not matter. *)
Lemma batch_convert_completes d o sa em w :
  Fs.is_dir (fs w) d = true ->
  is_ok (fst (batch_convert run d o sa em w)) =
    is_ok (fst (Fs.mkdir_parents (match o with Some x => x | None => d end)
                                 (fs w))).
Proof.
  intros Hd.
  destruct (Fs.mkdir_parents _ (fs w)) as [[[]|e] f1] eqn:E.
  - rewrite (batch_convert_run run d o sa em w f1 Hd E).
    now destruct (Fs.glob_docx f1 d).
  - now rewrite (batch_convert_mkdir_fail run d o sa em w e f1 Hd E).
Qed.

Lemma batch_convert_not_dir d o sa em w :
  Fs.is_dir (fs w) d = false ->
  batch_convert run d o sa em w =
    (Raise (mkExn NotADirectoryError ("Not a directory: " +:+ PurePath.str d)), w).
Proof.
  intros H. unfold batch_convert. cbv zeta.
  unfold bind at 1. unfold Path_is_dir at 1. cbv beta iota. now rewrite H.
Qed.

End MainFacts.

(** ** Directory creation, again *)

Section MkdirFacts.

Lemma set_fs_same (w : World) : set_fs w (fs w) = w.
Proof. now destruct w. Qed.

Lemma mkdir_rev_existing (r : Root) (rp : list string) (f : FileSystem) :
  Fs.is_dir f (mkPath r (rev rp)) = true ->
  Fs.mkdir_rev r rp f = (Ok tt, f).
Proof.
  intros H. assert (Hs : Fs.stat f (mkPath r (rev rp)) = Some Dir).
  { unfold Fs.is_dir in H. now destruct (Fs.stat f _) as [[d|]|]. }
  destruct rp as [|x up]; cbn [Fs.mkdir_rev]; unfold Fs.os_mkdir;
    rewrite Hs; cbn [kind Fs.EEXIST]; now rewrite H.
Qed.

(** [mkdir(parents=True, exist_ok=True)] on a directory does nothing. *)
Lemma mkdir_parents_existing (f : FileSystem) (p : Path) :
  Fs.is_dir f p = true -> Fs.mkdir_parents p f = (Ok tt, f).
Proof.
  intros H. unfold Fs.mkdir_parents. apply mkdir_rev_existing.
  rewrite rev_involutive. now destruct p.
Qed.

Lemma mkdir_rev_file (r : Root) (rp : list string) (f : FileSystem) :
  Fs.is_file f (mkPath r (rev rp)) = true ->
  Fs.mkdir_rev r rp f = (Raise (Fs.EEXIST (mkPath r (rev rp))), f).
Proof.
  intros H.
  assert (Hd : Fs.is_dir f (mkPath r (rev rp)) = false)
    by (unfold Fs.is_dir, Fs.is_file in *;
        now destruct (Fs.stat f _) as [[d|]|]).
  assert (Hs : exists d, Fs.stat f (mkPath r (rev rp)) = Some (File d)).
  { unfold Fs.is_file in H. destruct (Fs.stat f _) as [[d|]|]; eauto;
      discriminate. }
  destruct Hs as [d Hs].
  destruct rp as [|x up]; cbn [Fs.mkdir_rev]; unfold Fs.os_mkdir;
    rewrite Hs; cbn [kind Fs.EEXIST]; now rewrite Hd.
Qed.

(** ... and on a regular file it raises [FileExistsError] and changes
    nothing. *)
Lemma mkdir_parents_file (f : FileSystem) (p : Path) :
  Fs.is_file f p = true ->
  Fs.mkdir_parents p f = (Raise (Fs.EEXIST p), f).
Proof.
  intros H. unfold Fs.mkdir_parents.
  assert (E : mkPath (root p) (rev (rev (parts p))) = p)
    by (rewrite rev_involutive; now destruct p).
  rewrite <- E in H. rewrite (mkdir_rev_file _ _ _ H). now rewrite E.
Qed.

End MkdirFacts.

(** ** What [mkdir] creates *)

Section MkdirTotal.

Implicit Types (f : FileSystem) (p q a : Path).

Lemma ancestors_rev_In (r : Root) (rp : list string) a :
  In a (Fs.ancestors_rev r rp) ->
  root a = r /\ exists s, s <> [] /\ rev rp = parts a ++ s.
Proof.
  induction rp as [|x up IH]; [intros []|].
  cbn [Fs.ancestors_rev]. intros [<-|Hin].
  - split; [reflexivity|]. exists [x]. split; [discriminate | reflexivity].
  - destruct (IH Hin) as (Hr & s & Hs & E). split; [assumption|].
    exists (s ++ [x]). split; [now destruct s|].
    cbn [rev]. now rewrite E, <- List.app_assoc.
Qed.

Lemma is_within_spec (d q : Path) :
  Fs.is_within d q = true <->
  root q = root d /\ exists s, parts q = parts d ++ s.
Proof.
  unfold Fs.is_within. rewrite andb_true_iff, !bool_decide_eq_true. split.
  - intros [Hr Ht]. split; [assumption|].
    exists (skipn (length (parts d)) (parts q)).
    rewrite <- Ht at 1. symmetry. apply firstn_skipn.
  - intros [Hr [s Hs]]. split; [assumption|]. rewrite Hs.
    rewrite firstn_app, firstn_all, Nat.sub_diag. simpl.
    apply List.app_nil_r.
Qed.

Lemma os_mkdir_frame p f q :
  q <> p -> snd (Fs.os_mkdir p f) !! q = f !! q.
Proof.
  intros Hq. unfold Fs.os_mkdir. destruct (Fs.stat f p); [reflexivity|].
  destruct (Fs.resolve_parent f p); [|reflexivity].
  cbn [snd]. now rewrite lookup_insert_ne by congruence.
Qed.

Lemma mkdir_exist_ok_frame p f q :
  q <> p -> snd (Fs.mkdir_exist_ok p f) !! q = f !! q.
Proof.
  intros Hq. pose proof (os_mkdir_frame p f q Hq) as H.
  unfold Fs.mkdir_exist_ok.
  destruct (Fs.os_mkdir p f) as [[[]|e] f1]; cbn [snd] in *; [assumption|].
  destruct (kind e); try destruct (Fs.is_dir f1 p); assumption.
Qed.

(** [mkdir(parents=True, exist_ok=True)] touches the path and its
    ancestors, and nothing else, whether it succeeds or not. *)
Lemma mkdir_rev_frame (r : Root) (rp : list string) :
  forall f q,
    q <> mkPath r (rev rp) -> ~ In q (Fs.ancestors_rev r rp) ->
    snd (Fs.mkdir_rev r rp f) !! q = f !! q.
Proof.
  induction rp as [|x up IH]; intros f q Hq Ha; cbn [Fs.mkdir_rev].
  - pose proof (os_mkdir_frame _ f q Hq) as H.
    destruct (Fs.os_mkdir _ f) as [[[]|e] f1]; cbn [snd] in *; [assumption|].
    destruct (kind e); try destruct (Fs.is_dir f1 _); assumption.
  - pose proof (os_mkdir_frame _ f q Hq) as H.
    destruct (Fs.os_mkdir _ f) as [[[]|e] f1]; cbn [snd] in *; [assumption|].
    destruct (kind e);
      try (destruct (Fs.is_dir f1 _); cbn [snd]; assumption).
    cbn [Fs.ancestors_rev] in Ha.
    assert (Hup : snd (Fs.mkdir_rev r up f1) !! q = f1 !! q).
    { apply IH; [|intros Hin; apply Ha; now right]. intros ->. apply Ha. now left. }
    destruct (Fs.mkdir_rev r up f1) as [[[]|e1] fs1]; cbn [snd] in *.
    + rewrite (mkdir_exist_ok_frame _ fs1 q Hq). congruence.
    + congruence.
Qed.

Lemma mkdir_parents_frame p f q :
  q <> p -> ~ In q (Fs.ancestors p) ->
  snd (Fs.mkdir_parents p f) !! q = f !! q.
Proof.
  intros Hq Ha. unfold Fs.mkdir_parents. apply mkdir_rev_frame; [|exact Ha].
  rewrite rev_involutive. now destruct p.
Qed.

Lemma stat_lookup f (r : Root) (l : list string) (x : string) :
  Fs.stat f (mkPath r (l ++ [x])) = f !! mkPath r (l ++ [x]).
Proof. unfold Fs.stat. cbn [parts]. now destruct l. Qed.

(** In a tree where no regular file is in the way, the directory and
    all its missing ancestors are made. *)
Lemma mkdir_rev_total (r : Root) (rp : list string) :
  forall f,
    Fs.is_tree f = true ->
    (forall a, a = mkPath r (rev rp) \/ In a (Fs.ancestors_rev r rp) ->
               Fs.is_file f a = false) ->
    exists f1, Fs.mkdir_rev r rp f = (Ok tt, f1).
Proof.
  induction rp as [|x up IH]; intros f Ht Hfree.
  - exists f. apply mkdir_rev_existing. reflexivity.
  - set (self := mkPath r (rev (x :: up))).
    assert (Hself : Fs.is_file f self = false) by (apply Hfree; now left).
    destruct (Fs.stat f self) as [[d|]|] eqn:Es.
    + unfold Fs.is_file in Hself. now rewrite Es in Hself.
    + exists f. apply mkdir_rev_existing. fold self. unfold Fs.is_dir.
      now rewrite Es.
    + assert (Hpar : PurePath.parent self = mkPath r (rev up))
        by (unfold self; cbn [rev]; apply parent_snoc).
      assert (Hparf : Fs.is_file f (mkPath r (rev up)) = false)
        by (apply Hfree; right; now left).
      cbn [Fs.mkdir_rev]. fold self. unfold Fs.os_mkdir at 1. rewrite Es.
      unfold Fs.resolve_parent. rewrite Hpar.
      destruct (Fs.stat f (mkPath r (rev up))) as [[d|]|] eqn:Ep.
      * unfold Fs.is_file in Hparf. now rewrite Ep in Hparf.
      * eauto.
      * assert (Hex : existsb (Fs.is_file f) (Fs.ancestors self) = false).
        { apply not_true_is_false. intros Hx.
          apply existsb_exists in Hx as (a & Hin & Hfa).
          unfold Fs.ancestors, self in Hin. cbn [root parts] in Hin.
          rewrite rev_involutive in Hin.
          rewrite (Hfree a (or_intror Hin)) in Hfa. discriminate. }
        rewrite Hex. cbn [kind Fs.ENOENT].
        destruct (IH f Ht) as [fs1 E1].
        { intros a [->|Hin]; apply Hfree; right; [now left | now right]. }
        rewrite E1.
        destruct (mkdir_rev_ok _ _ _ _ E1) as (Hd1 & [_ Hext] & _).
        unfold Fs.mkdir_exist_ok, Fs.os_mkdir.
        destruct (Fs.stat fs1 self) as [[d|]|] eqn:Es1.
        -- exfalso. unfold self in Es1, Es. cbn [rev] in Es1, Es.
           rewrite stat_lookup in Es1, Es.
           destruct (Hext _ _ Es1) as [Hold|]; congruence.
        -- cbn [kind Fs.EEXIST]. unfold Fs.is_dir. rewrite Es1. eauto.
        -- unfold Fs.resolve_parent. rewrite Hpar.
           unfold Fs.is_dir in Hd1.
           destruct (Fs.stat fs1 (mkPath r (rev up))) as [[d|]|];
             try discriminate. eauto.
Qed.

Lemma mkdir_parents_total p f :
  Fs.is_tree f = true ->
  forallb (fun a => negb (Fs.is_file f a)) (p :: Fs.ancestors p) = true ->
  exists f1, Fs.mkdir_parents p f = (Ok tt, f1).
Proof.
  intros Ht Hfree. unfold Fs.mkdir_parents. apply mkdir_rev_total; [assumption|].
  rewrite forallb_forall in Hfree. intros a Ha.
  apply negb_true_iff, Hfree. destruct Ha as [->|Ha].
  - left. rewrite rev_involutive. now destruct p.
  - now right.
Qed.

End MkdirTotal.

(** ** What a conversion prints *)

Section OutputFacts.

Variable run : Process.

Lemma open_w_ok_inv (p : Path) (f f1 : FileSystem) :
  Fs.open_w p f = (Ok tt, f1) ->
  f1 = <[p := File (Raw "")]> f /\ parts p <> [].
Proof.
  unfold Fs.open_w, Fs.stat. destruct (parts p) as [|x l].
  - discriminate.
  - intros H. split; [|discriminate].
    destruct (f !! p) as [[d|]|].
    + now injection H as <-.
    + discriminate.
    + destruct (Fs.resolve_parent f p); [now injection H as <- | discriminate].
Qed.

Lemma create_zip_archive_stdout d n w :
  stdout (snd (create_zip_archive d n w)) = stdout w.
Proof.
  rewrite create_zip_archive_run. cbv zeta.
  now destruct (Fs.open_w _ (fs w)) as [[[]|e] f1].
Qed.

(** A conversion that returns has printed its three progress lines. *)
Lemma convert_ok_stdout i o sa em w r w' :
  convert_docx_to_latex run i o sa em w = (Ok r, w') ->
  stdout w' =
    stdout w ++ [converting_line i o;
                 "Successfully created: " +:+ PurePath.str (output_path_of i o);
                 "Created archive: "
                 +:+ PurePath.str (doc_dir_of i o // (PurePath.stem i +:+ ".zip"))].
Proof.
  intros H.
  destruct (convert_ok_inv run _ _ _ _ _ _ _ H)
    as (H1 & H2 & _ & f1 & cp & f2 & f3 & Hm & Hr & Hc & Ho & _).
  rewrite (convert_run run _ _ _ _ _ _ H1 H2 Hm) in H. cbv zeta in H.
  rewrite Hr in H. apply Z.eqb_eq in Hc. rewrite Hc in H.
  rewrite create_zip_archive_run in H. cbv zeta in H.
  unfold world_after_run in H.
  cbn [print snd fs set_fs stdout stderr spawned] in H. rewrite Ho in H.
  injection H as _ <-. cbn [print snd stdout set_fs].
  now rewrite <- !List.app_assoc.
Qed.

End OutputFacts.

(** ** The archiver and the rest of the file system *)

Section ArchiveFacts.

Lemma create_zip_archive_fs (d : Path) (n : string) (w : World) :
  let zip_path := d // (n +:+ ".zip") in
  (fst (Fs.open_w zip_path (fs w)) = Ok tt ->
   create_zip_archive d n w =
     (Ok zip_path,
      set_fs w (<[zip_path :=
                    File (Zip (archive_members
                                 (<[zip_path := File (Raw "")]> (fs w)) d n))]>
                  (fs w)))
   /\ parts zip_path <> [])
  /\ (forall e, fst (Fs.open_w zip_path (fs w)) = Raise e ->
                create_zip_archive d n w = (Raise e, w)).
Proof.
  intros zip_path. rewrite create_zip_archive_run. cbv zeta. fold zip_path.
  destruct (Fs.open_w zip_path (fs w)) as [[[]|e] f1] eqn:E; cbn [fst].
  - split; [|discriminate]. intros _.
    apply open_w_ok_inv in E as [-> Hp]. split; [|assumption].
    now rewrite insert_insert_eq.
  - split; [discriminate|]. intros e' [= <-].
    apply open_w_raise_kind in E as [-> _]. now rewrite set_fs_same.
Qed.

End ArchiveFacts.

(** ** Bundles that do not overlap *)

Section FrameFacts.

Lemma create_zip_archive_frame (d : Path) (n : string) (w : World) (q : Path) :
  q <> d // (n +:+ ".zip") ->
  fs (snd (create_zip_archive d n w)) !! q = fs w !! q.
Proof.
  intros Hq. destruct (create_zip_archive_fs d n w) as [Hok Hraise].
  destruct (fst (Fs.open_w _ (fs w))) as [[]|e] eqn:E.
  - destruct (Hok eq_refl) as [-> _]. cbn [snd fs set_fs].
    now rewrite lookup_insert_ne by congruence.
  - now rewrite (Hraise e eq_refl).
Qed.

(** What a conversion leaves alone: every path that is not the bundle
    directory, one of its ancestors or the archive, and that the
    converter does not touch. *)
Lemma convert_frame (run : Process) i o sa em w (q : Path) :
  (forall f,
      snd (run (pandoc_cmd i (doc_dir_of i o) (output_path_of i o) sa em) f) !! q
      = f !! q) ->
  q <> doc_dir_of i o ->
  ~ In q (Fs.ancestors (doc_dir_of i o)) ->
  q <> doc_dir_of i o // (PurePath.stem i +:+ ".zip") ->
  fs (snd (convert_docx_to_latex run i o sa em w)) !! q = fs w !! q.
Proof.
  intros Hrun Hd Ha Hz.
  destruct (Fs.exists_ (fs w) i) eqn:H1; [|now rewrite convert_missing].
  destruct (String.eqb (Str.lower (PurePath.suffix i)) ".docx") eqn:H2;
    [|now rewrite convert_bad_suffix].
  pose proof (mkdir_parents_frame (doc_dir_of i o) (fs w) q Hd Ha) as Hm.
  destruct (Fs.mkdir_parents (doc_dir_of i o) (fs w)) as [[[]|e] f1] eqn:H3;
    cbn [snd] in Hm;
    [|now rewrite (convert_mkdir_fail run _ _ _ _ _ _ _ H1 H2 H3)].
  rewrite (convert_run run _ _ _ _ _ _ H1 H2 H3). cbv zeta.
  specialize (Hrun f1).
  destruct (run _ f1) as [[cp|e] f2]; cbn [snd] in Hrun;
    [|cbn [snd fs world_after_run]; congruence].
  destruct (Z.eqb (returncode cp) 0);
    [|cbn [snd fs world_after_run]; congruence].
  match goal with
  | |- context [create_zip_archive ?d ?n ?w0] =>
      pose proof (create_zip_archive_frame d n w0 q Hz) as Hzf;
      destruct (create_zip_archive d n w0) as [[z|e] w3]
  end; cbn [snd fs print set_fs world_after_run] in *; congruence.
Qed.

Lemma joinpath_plain (out : Path) (x : string) :
  Str.contains PurePath.slash x = false -> x <> "" -> x <> "." ->
  out // x = mkPath (root out) (parts out ++ [x]).
Proof.
  intros Hs He Hd. rewrite joinpath_no_slash by assumption.
  unfold PurePath.is_component.
  destruct (String.eqb_spec x ""); [contradiction|].
  destruct (String.eqb_spec x "."); [contradiction|]. reflexivity.
Qed.

Lemma within_refl (b : Path) : Fs.is_within b b = true.
Proof.
  apply is_within_spec. split; [reflexivity|]. exists [].
  now rewrite List.app_nil_r.
Qed.

Lemma within_children_disjoint (r : Root) (l : list string) (x y : string)
    (q : Path) :
  x <> y ->
  Fs.is_within (mkPath r (l ++ [x])) q = true ->
  Fs.is_within (mkPath r (l ++ [y])) q = false.
Proof.
  intros Hne Hx. apply not_true_is_false. intros Hy.
  apply is_within_spec in Hx as (_ & s1 & E1).
  apply is_within_spec in Hy as (_ & s2 & E2).
  cbn [parts] in *. rewrite E1, <- !List.app_assoc in E2.
  apply app_inv_head in E2. cbn in E2. congruence.
Qed.

Lemma within_not_sibling_ancestor (r : Root) (l : list string) (x y : string)
    (q : Path) :
  x <> y ->
  Fs.is_within (mkPath r (l ++ [y])) q = true ->
  ~ In q (Fs.ancestors (mkPath r (l ++ [x]))).
Proof.
  intros Hne Hw Hin. apply is_within_spec in Hw as (_ & t & Et).
  apply ancestors_rev_In in Hin as (_ & s & Hs & Es).
  cbn [parts] in *. rewrite rev_involutive in Es.
  rewrite Et, <- !List.app_assoc in Es.
  apply app_inv_head in Es. cbn in Es. congruence.
Qed.

End FrameFacts.

(** * The claims *)

(** C1. A conversion that succeeds returns
    [<parent>/<base-name>/<base-name>.tex], where the base name is the
    stem of the input and the parent is the given output directory or
    else the parent of the input, after the bundle directory
    [<parent>/<base-name>] has been made and the converter has run in it
    and exited with status 0.  And the bundle directory is made with its
    parents: for an existing [.docx] input, in a tree-shaped file system
    where no regular file is in the way, [mkdir] succeeds whether or not
    the parents exist; afterwards the bundle directory and every one of
    its ancestors is a directory, what existed is untouched, nothing
    else is created, and the converter is started. *)
Theorem C1_bundle_directory_and_output_path
    (run : Process) (input_file : Path) (output_dir : option Path)
    (standalone extract_media : bool) (w : World) :
  let parent_dir :=
    match output_dir with Some d => d | None => PurePath.parent input_file end in
  let base := PurePath.stem input_file in
  let doc_dir := parent_dir // base in
  let cmd := pandoc_cmd input_file doc_dir (doc_dir // (base +:+ ".tex"))
               standalone extract_media in
  let res := convert_docx_to_latex run input_file output_dir
               standalone extract_media w in
  (forall (r : Path) (w' : World),
      res = (Ok r, w') ->
      r = doc_dir // (base +:+ ".tex")
      /\ Str.lower (PurePath.suffix input_file) = ".docx"
      /\ exists f1 cp f2,
          Fs.mkdir_parents doc_dir (fs w) = (Ok tt, f1)
          /\ Fs.is_dir f1 doc_dir = true
          /\ extends (fs w) f1
          /\ (Fs.is_tree (fs w) = true ->
              forall a, In a (Fs.ancestors doc_dir) -> Fs.is_dir f1 a = true)
          /\ run cmd f1 = (Ok cp, f2)
          /\ returncode cp = 0%Z)
  /\ (Fs.exists_ (fs w) input_file = true ->
      Str.lower (PurePath.suffix input_file) = ".docx" ->
      Fs.is_tree (fs w) = true ->
      forallb (fun a => negb (Fs.is_file (fs w) a))
              (doc_dir :: Fs.ancestors doc_dir) = true ->
      exists f1,
        Fs.mkdir_parents doc_dir (fs w) = (Ok tt, f1)
        /\ Fs.is_dir f1 doc_dir = true
        /\ (forall a, In a (Fs.ancestors doc_dir) -> Fs.is_dir f1 a = true)
        /\ extends (fs w) f1
        /\ (forall q, q <> doc_dir -> ~ In q (Fs.ancestors doc_dir) ->
                      f1 !! q = fs w !! q)
        /\ spawned (snd res) = spawned w ++ [cmd]).
Proof.
  intros parent_dir base doc_dir cmd res. split.
  - intros r w' H.
    apply convert_ok_inv in H
      as (_ & Hs & -> & f1 & cp & f2 & f3 & Hm & Hr & Hc & _).
    split; [reflexivity|]. split; [now apply String.eqb_eq|].
    exists f1, cp, f2.
    destruct (mkdir_parents_ok _ _ _ Hm) as (Hd & He & Ht).
    repeat split; try assumption; try apply He.
    intros Htree a Ha.
    apply (tree_ancestors f1 (doc_dir_of input_file output_dir)); auto.
    now apply is_dir_exists.
  - intros Hex Hs Ht Hfree.
    destruct (mkdir_parents_total doc_dir (fs w) Ht Hfree) as [f1 Hm].
    exists f1. destruct (mkdir_parents_ok _ _ _ Hm) as (Hd & He & Ht1).
    split; [assumption|]. split; [assumption|]. split.
    { intros a Ha. apply (tree_ancestors f1 doc_dir); auto.
      now apply is_dir_exists. }
    split; [assumption|]. split.
    { intros q Hq Ha.
      pose proof (mkdir_parents_frame doc_dir (fs w) q Hq Ha) as Hf.
      now rewrite Hm in Hf. }
    apply String.eqb_eq in Hs.
    exact (convert_spawned run input_file output_dir standalone extract_media
             w f1 Hex Hs Hm).
Qed.

Lemma C1_witness :
  let input_file := docs // "report.docx" in
  let out := PurePath.parse "/out/a" in
  let w := world_of fs_report in
  let res := convert_docx_to_latex pandoc_ok input_file (Some out) true true w in
  Fs.exists_ (fs w) (PurePath.parse "/out") = false
  /\ fst res = Ok (PurePath.parse "/out/a/report/report.tex")
  /\ Fs.is_dir (fs (snd res)) (PurePath.parse "/out") = true
  /\ Fs.is_dir (fs (snd res)) (PurePath.parse "/out/a") = true
  /\ Fs.is_dir (fs (snd res)) (PurePath.parse "/out/a/report") = true
  /\ PurePath.parse "/out/a/report/report.tex"
     = out // PurePath.stem input_file // (PurePath.stem input_file +:+ ".tex")
  /\ exists f1,
       Fs.mkdir_parents (out // PurePath.stem input_file) (fs w) = (Ok tt, f1)
       /\ Fs.is_dir f1 (PurePath.parse "/out") = true.
Proof.
  intros input_file out w res.
  set (doc_dir := out // PurePath.stem input_file).
  assert (H : fst res = Ok (PurePath.parse "/out/a/report/report.tex"))
    by (vm_compute; reflexivity).
  assert (H1 : Fs.exists_ (fs w) input_file = true) by (vm_compute; reflexivity).
  assert (H2 : Str.lower (PurePath.suffix input_file) = ".docx")
    by (vm_compute; reflexivity).
  assert (H3 : Fs.is_tree (fs w) = true) by (vm_compute; reflexivity).
  assert (H4 : forallb (fun a => negb (Fs.is_file (fs w) a))
                 (doc_dir :: Fs.ancestors doc_dir) = true)
    by (vm_compute; reflexivity).
  assert (H5 : In (PurePath.parse "/out") (Fs.ancestors doc_dir))
    by (vm_compute; auto).
  pose proof (C1_bundle_directory_and_output_path pandoc_ok input_file
                (Some out) true true w) as [Hok Hmk].
  split; [vm_compute; reflexivity|]. split; [exact H|].
  split; [vm_compute; reflexivity|]. split; [vm_compute; reflexivity|].
  split; [vm_compute; reflexivity|]. split.
  - exact (proj1 (Hok _ (snd res) (pair_fst_snd res _ H))).
  - destruct (Hmk H1 H2 H3 H4) as (f1 & Hm & _ & Ha & _).
    exists f1. split; [exact Hm | exact (Ha _ H5)].
Defined.

(** C4. The converter is started with
    [pandoc <input> [-s] [--extract-media <bundle>] -o <output>], in that
    order, with [-s] exactly when [standalone] holds and the extraction
    flag, pointing at the bundle directory, exactly when [extract_media]
    holds; a conversion starts it once, with this command line, when the
    input passes validation and the bundle directory can be made, and
    not at all otherwise. *)
Theorem C4_command_line
    (run : Process) (input_file : Path) (output_dir : option Path)
    (standalone extract_media : bool) (w : World) :
  let doc_dir := doc_dir_of input_file output_dir in
  let output_path := output_path_of input_file output_dir in
  let cmd := pandoc_cmd input_file doc_dir output_path standalone extract_media in
  cmd = ["pandoc"; PurePath.str input_file]
        ++ (if standalone then ["-s"] else [])
        ++ (if extract_media
            then ["--extract-media"; PurePath.str doc_dir] else [])
        ++ ["-o"; PurePath.str output_path]
  /\ spawned (snd (convert_docx_to_latex run input_file output_dir
                     standalone extract_media w)) =
       if Fs.exists_ (fs w) input_file
          && String.eqb (Str.lower (PurePath.suffix input_file)) ".docx"
          && is_ok (fst (Fs.mkdir_parents doc_dir (fs w)))
       then spawned w ++ [cmd] else spawned w.
Proof.
  intros doc_dir output_path cmd. split.
  - unfold cmd, pandoc_cmd. now destruct standalone, extract_media.
  - destruct (Fs.exists_ (fs w) input_file) eqn:H1;
      [|now rewrite convert_missing].
    destruct (String.eqb (Str.lower (PurePath.suffix input_file)) ".docx") eqn:H2;
      [|now rewrite convert_bad_suffix].
    destruct (Fs.mkdir_parents doc_dir (fs w)) as [[[]|e] f1] eqn:H3.
    + now rewrite (convert_spawned run _ _ _ _ _ _ H1 H2 H3).
    + now rewrite (convert_mkdir_fail run _ _ _ _ _ _ _ H1 H2 H3).
Qed.

(** C5. When the converter exits with a non-zero status the conversion
    raises [RuntimeError] with the captured standard error in its
    message, and the file system is left exactly as the converter left
    it, bundle directory included; when it exits with status zero no
    [RuntimeError] is raised. *)
Theorem C5_converter_failure
    (run : Process) (input_file : Path) (output_dir : option Path)
    (standalone extract_media : bool) (w : World)
    (f1 f2 : FileSystem) (cp : CompletedProcess) :
  Fs.exists_ (fs w) input_file = true ->
  String.eqb (Str.lower (PurePath.suffix input_file)) ".docx" = true ->
  Fs.mkdir_parents (doc_dir_of input_file output_dir) (fs w) = (Ok tt, f1) ->
  run (pandoc_cmd input_file (doc_dir_of input_file output_dir)
         (output_path_of input_file output_dir) standalone extract_media) f1
    = (Ok cp, f2) ->
  let res := convert_docx_to_latex run input_file output_dir
               standalone extract_media w in
  Fs.is_dir f1 (doc_dir_of input_file output_dir) = true
  /\ if Z.eqb (returncode cp) 0
     then match fst res with
          | Ok _ => True
          | Raise e => kind e <> RuntimeError
          end
     else fst res = Raise (mkExn RuntimeError
                             ("Pandoc error: " +:+ proc_stderr cp))
          /\ fs (snd res) = f2.
Proof.
  intros H1 H2 H3 H4 res. split; [now apply mkdir_parents_ok in H3|].
  unfold res. rewrite (convert_run run _ _ _ _ _ _ H1 H2 H3). cbv zeta.
  rewrite H4. destruct (Z.eqb (returncode cp) 0); [|now split].
  rewrite create_zip_archive_run. cbv zeta.
  destruct (Fs.open_w _ _) as [[[]|e] f3] eqn:E; [exact I|].
  now apply open_w_raise_kind in E.
Qed.

Lemma C5_witness :
  let res := convert_docx_to_latex pandoc_fail (docs // "report.docx") None
               true true (world_of fs_report) in
  fst res = Raise (mkExn RuntimeError ("Pandoc error: " +:+ "boom"))
  /\ Fs.is_dir (fs (snd res)) (docs // "report") = true.
Proof.
  intros res.
  set (made := Fs.mkdir_parents (doc_dir_of (docs // "report.docx") None)
                 (fs (world_of fs_report))).
  assert (H1 : Fs.exists_ (fs (world_of fs_report)) (docs // "report.docx") = true)
    by (vm_compute; reflexivity).
  assert (H2 : String.eqb (Str.lower (PurePath.suffix (docs // "report.docx")))
                 ".docx" = true) by (vm_compute; reflexivity).
  assert (H3 : fst made = Ok tt) by (vm_compute; reflexivity).
  split; [|vm_compute; reflexivity].
  exact (proj1 (proj2 (C5_converter_failure pandoc_fail
                  (docs // "report.docx") None true true (world_of fs_report)
                  (snd made) (snd made) (mkCompleted 1 "boom")
                  H1 H2 (pair_fst_snd made _ H3) (pandoc_fail_run _ _)))).
Defined.

(** C6. An input that exists but whose suffix, lower-cased, is not
    [.docx] makes the conversion raise [ValueError] with the world
    untouched: no directory is made and no process is started. *)
Theorem C6_wrong_extension
    (run : Process) (input_file : Path) (output_dir : option Path)
    (standalone extract_media : bool) (w : World) :
  Fs.exists_ (fs w) input_file = true ->
  Str.lower (PurePath.suffix input_file) <> ".docx" ->
  convert_docx_to_latex run input_file output_dir standalone extract_media w =
    (Raise (mkExn ValueError
              ("Input file must be .docx format: " +:+ PurePath.str input_file)),
     w).
Proof.
  intros H1 H2. apply convert_bad_suffix; [assumption|].
  now apply String.eqb_neq.
Qed.

Lemma C6_witness :
  PurePath.str (docs // "notes.txt") = "/docs/notes.txt"
  /\ convert_docx_to_latex pandoc_ok (docs // "notes.txt") None true true
       (world_of fs_notes) =
     (Raise (mkExn ValueError
               ("Input file must be .docx format: "
                +:+ PurePath.str (docs // "notes.txt"))),
      world_of fs_notes).
Proof.
  split; [vm_compute; reflexivity|].
  assert (H1 : Fs.exists_ (fs (world_of fs_notes)) (docs // "notes.txt") = true)
    by (vm_compute; reflexivity).
  assert (H2 : Str.lower (PurePath.suffix (docs // "notes.txt")) <> ".docx")
    by (vm_compute; discriminate).
  exact (C6_wrong_extension pandoc_ok (docs // "notes.txt") None true true
           (world_of fs_notes) H1 H2).
Defined.

(** C7. An input that does not exist makes the conversion raise
    [FileNotFoundError] with the world untouched: the bundle directory
    is not made and nothing in the file system changes. *)
Theorem C7_missing_input
    (run : Process) (input_file : Path) (output_dir : option Path)
    (standalone extract_media : bool) (w : World) :
  Fs.exists_ (fs w) input_file = false ->
  convert_docx_to_latex run input_file output_dir standalone extract_media w =
    (Raise (mkExn FileNotFoundError
              ("Input file not found: " +:+ PurePath.str input_file)),
     w).
Proof. apply convert_missing. Qed.

Lemma C7_witness :
  PurePath.str (docs // "missing.docx") = "/docs/missing.docx"
  /\ convert_docx_to_latex pandoc_ok (docs // "missing.docx") None true true
       (world_of fs_report) =
     (Raise (mkExn FileNotFoundError
               ("Input file not found: "
                +:+ PurePath.str (docs // "missing.docx"))),
      world_of fs_report).
Proof.
  split; [vm_compute; reflexivity|].
  assert (H1 : Fs.exists_ (fs (world_of fs_report)) (docs // "missing.docx")
               = false) by (vm_compute; reflexivity).
  exact (C7_missing_input pandoc_ok (docs // "missing.docx") None true true
           (world_of fs_report) H1).
Defined.

(** C2 (a defect of the code).  [create_zip_archive] tests the primary
    output with [exists()] where, a few lines below, it tests the media
    files with [is_file()].  Take the bundle [/out/report] in which
    [report.tex] is a directory and [media] holds the regular file
    [image1.png] and the directory [sub].  The call returns the archive
    path, and the archive has exactly two members: the directory entry
    [report.tex/], stored and not deflated, and [media/image1.png].  So
    the directory below [media] is skipped, the directory at the place
    of the primary output is not: the archive has an entry that is
    neither the primary output nor a media file, no member [report.tex]
    although that path exists on disk, and an entry that is not
    deflated. *)
Theorem C2_tex_directory_is_archived :
  let res := create_zip_archive bundle "report" (world_of fs_texdir_media) in
  Fs.is_dir fs_texdir_media bundle = true
  /\ Fs.exists_ fs_texdir_media (bundle // "report.tex") = true
  /\ Fs.is_file fs_texdir_media (bundle // "report.tex") = false
  /\ Fs.is_dir fs_texdir_media (bundle // "media" // "sub") = true
  /\ Fs.is_file fs_texdir_media (bundle // "media" // "image1.png") = true
  /\ fst res = Ok (bundle // "report.zip")
  /\ exists members : list ZipInfo,
       fs (snd res) !! (bundle // "report.zip") = Some (File (Zip members))
       /\ members = [mkZipInfo "report.tex/" ZIP_STORED (Raw "");
                     mkZipInfo "media/image1.png" ZIP_DEFLATED (Raw "png")]
       /\ ~ In "report.tex" (List.map zi_filename members)
       /\ ~ (forall m, In m members -> zi_compress_type m = ZIP_DEFLATED).
Proof.
  intros res.
  split; [vm_compute; reflexivity|]. split; [vm_compute; reflexivity|].
  split; [vm_compute; reflexivity|]. split; [vm_compute; reflexivity|].
  split; [vm_compute; reflexivity|]. split; [vm_compute; reflexivity|].
  exists [mkZipInfo "report.tex/" ZIP_STORED (Raw "");
          mkZipInfo "media/image1.png" ZIP_DEFLATED (Raw "png")].
  split; [vm_compute; reflexivity|]. split; [reflexivity|]. split.
  - simpl. intros [H|[H|[]]]; discriminate.
  - intros H. specialize (H _ (or_introl eq_refl)). discriminate.
Qed.

(** C9, as amended.  Take a file system whose entries have valid names,
    and two distinct files enumerated by [glob("*.docx")] that both pass
    the extension check of the conversion and whose stems are neither
    [.] nor [..].  No file is enumerated twice and the two stems differ.
    Each bundle directory is the child of the common output parent (the
    output directory given, else the input directory) named by the
    item's own stem; the two bundle directories are distinct and
    neither lies in or below the other.  Every path in or below the
    bundle of one item is left as it was by the conversion of the other
    item, in every world, provided the converter run for that other
    item changes nothing outside that item's own bundle. *)
Theorem C9_distinct_bundle_directories
    (run : Process) (f : FileSystem) (input_dir : Path)
    (output_dir : option Path) (f1 f2 : Path)
    (standalone extract_media : bool) :
  let parent_dir := match output_dir with Some d => d | None => input_dir end in
  let b1 := doc_dir_of f1 output_dir in
  let b2 := doc_dir_of f2 output_dir in
  Fs.valid_names f = true ->
  In f1 (Fs.glob_docx f input_dir) ->
  In f2 (Fs.glob_docx f input_dir) ->
  f1 <> f2 ->
  Str.lower (PurePath.suffix f1) = ".docx" ->
  Str.lower (PurePath.suffix f2) = ".docx" ->
  PurePath.stem f1 <> "." -> PurePath.stem f1 <> ".." ->
  PurePath.stem f2 <> "." -> PurePath.stem f2 <> ".." ->
  (forall (g : FileSystem) (q : Path),
      Fs.is_within b1 q = false ->
      snd (run (pandoc_cmd f1 b1 (output_path_of f1 output_dir)
                  standalone extract_media) g) !! q = g !! q) ->
  List.NoDup (Fs.glob_docx f input_dir)
  /\ PurePath.stem f1 <> PurePath.stem f2
  /\ b1 = parent_dir // PurePath.stem f1
  /\ b2 = parent_dir // PurePath.stem f2
  /\ PurePath.parent b1 = parent_dir /\ PurePath.name b1 = PurePath.stem f1
  /\ PurePath.parent b2 = parent_dir /\ PurePath.name b2 = PurePath.stem f2
  /\ b1 <> b2
  /\ (forall q, Fs.is_within b1 q = true -> Fs.is_within b2 q = false)
  /\ (forall q, Fs.is_within b2 q = true -> Fs.is_within b1 q = false)
  /\ (forall (w : World) (q : Path),
         Fs.is_within b2 q = true ->
         fs (snd (convert_docx_to_latex run f1 output_dir
                    standalone extract_media w)) !! q
         = fs w !! q).
Proof.
  intros parent_dir b1 b2 Hv H1 H2 Hne Hs1 Hs2 Hd1 Hdd1 Hd2 Hdd2 Hconf.
  destruct (glob_docx_stem _ _ _ H1 Hs1) as [Hn1 Hx1].
  destruct (glob_docx_stem _ _ _ H2 Hs2) as [Hn2 Hx2].
  pose proof (glob_docx_valid_name _ _ _ Hv H1) as Hc1.
  pose proof (glob_docx_valid_name _ _ _ Hv H2) as Hc2.
  rewrite Hx1, contains_app in Hc1. apply orb_false_iff in Hc1 as [Hc1 _].
  rewrite Hx2, contains_app in Hc2. apply orb_false_iff in Hc2 as [Hc2 _].
  destruct (glob_docx_In _ _ _ H1) as (_ & _ & E1 & _).
  destruct (glob_docx_In _ _ _ H2) as (_ & _ & E2 & _).
  assert (Hstem : PurePath.stem f1 <> PurePath.stem f2).
  { intros E. apply Hne. rewrite E1, E2. now rewrite Hx1, Hx2, E. }
  assert (Hp : forall q, In q (Fs.glob_docx f input_dir) ->
                 doc_dir_of q output_dir = parent_dir // PurePath.stem q).
  { intros q Hq. unfold doc_dir_of, parent_dir. cbv zeta.
    destruct output_dir; [reflexivity|].
    destruct (glob_docx_In _ _ _ Hq) as (_ & _ & E & _).
    replace (PurePath.parent q) with input_dir; [reflexivity|].
    rewrite E, parent_snoc. now destruct input_dir. }
  assert (B1 : b1 = mkPath (root parent_dir)
                      (parts parent_dir ++ [PurePath.stem f1])).
  { unfold b1. rewrite (Hp _ H1). now apply joinpath_plain. }
  assert (B2 : b2 = mkPath (root parent_dir)
                      (parts parent_dir ++ [PurePath.stem f2])).
  { unfold b2. rewrite (Hp _ H2). now apply joinpath_plain. }
  assert (D12 : forall q, Fs.is_within b1 q = true -> Fs.is_within b2 q = false).
  { intros q. rewrite B1, B2. now apply within_children_disjoint. }
  assert (D21 : forall q, Fs.is_within b2 q = true -> Fs.is_within b1 q = false).
  { intros q. rewrite B1, B2. apply within_children_disjoint. congruence. }
  split; [apply glob_docx_NoDup|]. split; [assumption|].
  split; [exact (Hp _ H1)|]. split; [exact (Hp _ H2)|].
  split; [rewrite B1, parent_snoc; now destruct parent_dir|].
  split; [rewrite B1; apply name_snoc|].
  split; [rewrite B2, parent_snoc; now destruct parent_dir|].
  split; [rewrite B2; apply name_snoc|].
  split.
  { intros E. pose proof (D12 b1 (within_refl b1)) as H.
    rewrite <- E, within_refl in H. discriminate. }
  split; [assumption|]. split; [assumption|].
  intros w q Hq. pose proof (D21 q Hq) as Hq1.
  apply convert_frame.
  - intros g. now apply Hconf.
  - intros ->. fold b1 in Hq1. rewrite within_refl in Hq1. discriminate.
  - fold b1. rewrite B1. rewrite B2 in Hq.
    apply within_not_sibling_ancestor with (y := PurePath.stem f2);
      [congruence | assumption].
  - intros ->. fold b1 in Hq1.
    rewrite zip_path_parts in Hq1 by assumption.
    assert (Hz : Fs.is_within b1
                   (mkPath (root b1)
                      (parts b1 ++ [PurePath.stem f1 +:+ ".zip"])) = true)
      by (apply is_within_spec; cbn [root parts]; eauto).
    rewrite Hz in Hq1. discriminate.
Qed.

Lemma C9_witness :
  let out := PurePath.parse "/out" in
  let w := world_of fs_two in
  let res := convert_docx_to_latex pandoc_ok (docs // "a.docx") (Some out)
               true true w in
  fst res = Ok (out // "a" // "a.tex")
  /\ doc_dir_of (docs // "a.docx") (Some out) = out // "a"
  /\ doc_dir_of (docs // "b.docx") (Some out) = out // "b"
  /\ out // "a" <> out // "b"
  /\ (forall q, Fs.is_within (out // "b") q = true ->
                fs (snd res) !! q = fs w !! q).
Proof.
  intros out w res.
  assert (V : Fs.valid_names fs_two = true) by (vm_compute; reflexivity).
  assert (I1 : In (docs // "a.docx") (Fs.glob_docx fs_two docs))
    by (vm_compute; tauto).
  assert (I2 : In (docs // "b.docx") (Fs.glob_docx fs_two docs))
    by (vm_compute; tauto).
  assert (N : docs // "a.docx" <> docs // "b.docx")
    by (vm_compute; discriminate).
  assert (S1 : Str.lower (PurePath.suffix (docs // "a.docx")) = ".docx")
    by (vm_compute; reflexivity).
  assert (S2 : Str.lower (PurePath.suffix (docs // "b.docx")) = ".docx")
    by (vm_compute; reflexivity).
  assert (A1 : PurePath.stem (docs // "a.docx") <> ".")
    by (vm_compute; discriminate).
  assert (A2 : PurePath.stem (docs // "a.docx") <> "..")
    by (vm_compute; discriminate).
  assert (A3 : PurePath.stem (docs // "b.docx") <> ".")
    by (vm_compute; discriminate).
  assert (A4 : PurePath.stem (docs // "b.docx") <> "..")
    by (vm_compute; discriminate).
  assert (K : forall (g : FileSystem) (q : Path),
             Fs.is_within (doc_dir_of (docs // "a.docx") (Some out)) q = false ->
             snd (pandoc_ok
                    (pandoc_cmd (docs // "a.docx")
                       (doc_dir_of (docs // "a.docx") (Some out))
                       (output_path_of (docs // "a.docx") (Some out))
                       true true) g) !! q = g !! q).
  { intros g q Hq. unfold pandoc_ok.
    assert (E : arg_after "-o"
                  (pandoc_cmd (docs // "a.docx")
                     (doc_dir_of (docs // "a.docx") (Some out))
                     (output_path_of (docs // "a.docx") (Some out))
                     true true) = Some "/out/a/a.tex")
      by (vm_compute; reflexivity).
    rewrite E. cbn [snd]. apply lookup_insert_ne. intros <-.
    vm_compute in Hq. discriminate. }
  destruct (C9_distinct_bundle_directories pandoc_ok fs_two docs (Some out)
              (docs // "a.docx") (docs // "b.docx") true true
              V I1 I2 N S1 S2 A1 A2 A3 A4 K)
    as (_ & _ & B1 & B2 & _ & _ & _ & _ & D & _ & _ & F).
  split; [vm_compute; reflexivity|].
  split; [vm_compute; reflexivity|]. split; [vm_compute; reflexivity|].
  split; [intros E; apply D; vm_compute; vm_compute in E; exact E|].
  intros q Hq. apply F. exact Hq.
Defined.

(** C9, as stated, fails twice.  In a directory holding the files
    [.docx] and [.docx.docx], both are enumerated, they are distinct,
    and they have the same stem and the same bundle directory.  In a
    directory holding [..docx] and [media.docx], both pass the
    extension check and have distinct stems, [.] and [media]; with that
    directory as output parent, the bundle of the first is the output
    parent itself, so it is not a child of the output parent, the
    bundle of the second lies inside it, and the conversion of the
    second writes a file inside the bundle of the first. *)
Lemma C9_counterexample_dotfiles :
  (In (docs // ".docx") (Fs.glob_docx fs_dotfiles docs)
   /\ In (docs // ".docx.docx") (Fs.glob_docx fs_dotfiles docs)
   /\ docs // ".docx" <> docs // ".docx.docx"
   /\ Fs.valid_names fs_dotfiles = true
   /\ Fs.is_tree fs_dotfiles = true
   /\ ~ (PurePath.stem (docs // ".docx") <> PurePath.stem (docs // ".docx.docx"))
   /\ ~ (doc_dir_of (docs // ".docx") (Some docs)
         <> doc_dir_of (docs // ".docx.docx") (Some docs)))
  /\ (let w := world_of fs_dotdot in
      let b1 := doc_dir_of (docs // "..docx") (Some docs) in
      let b2 := doc_dir_of (docs // "media.docx") (Some docs) in
      let res := convert_docx_to_latex pandoc_ok (docs // "media.docx")
                   (Some docs) true true w in
      In (docs // "..docx") (Fs.glob_docx fs_dotdot docs)
      /\ In (docs // "media.docx") (Fs.glob_docx fs_dotdot docs)
      /\ Fs.valid_names fs_dotdot = true
      /\ Fs.is_tree fs_dotdot = true
      /\ Str.lower (PurePath.suffix (docs // "..docx")) = ".docx"
      /\ Str.lower (PurePath.suffix (docs // "media.docx")) = ".docx"
      /\ PurePath.stem (docs // "..docx") = "."
      /\ PurePath.stem (docs // "media.docx") = "media"
      /\ b1 = docs
      /\ ~ (PurePath.parent b1 = docs)
      /\ b2 = docs // "media"
      /\ Fs.is_within b1 b2 = true
      /\ Fs.is_within b1 (b2 // "media.tex") = true
      /\ fst res = Ok (b2 // "media.tex")
      /\ fs w !! (b2 // "media.tex") = None
      /\ fs (snd res) !! (b2 // "media.tex") = Some (File (Raw "tex"))).
Proof.
  split.
  - split; [vm_compute; tauto|]. split; [vm_compute; tauto|].
    split; [vm_compute; discriminate|]. split; [vm_compute; reflexivity|].
    split; [vm_compute; reflexivity|].
    split; intros H; apply H; vm_compute; reflexivity.
  - intros w b1 b2 res.
    split; [vm_compute; tauto|]. split; [vm_compute; tauto|].
    split; [vm_compute; reflexivity|]. split; [vm_compute; reflexivity|].
    split; [vm_compute; reflexivity|]. split; [vm_compute; reflexivity|].
    split; [vm_compute; reflexivity|]. split; [vm_compute; reflexivity|].
    split; [vm_compute; reflexivity|].
    split; [vm_compute; discriminate|].
    split; [vm_compute; reflexivity|]. split; [vm_compute; reflexivity|].
    split; [vm_compute; reflexivity|]. split; [vm_compute; reflexivity|].
    split; vm_compute; reflexivity.
Qed.

(** C10. The two modes do not accept the same extensions.  Whatever
    [glob("*.docx")] enumerates has a name ending in lower-case [.docx],
    while the single-file check lower-cases the suffix first.  So for
    the directory holding only [X.DOCX] the batch finds no candidate,
    reports it and returns the empty list without starting the
    converter, whereas the conversion of that very file passes
    validation and starts the converter. *)
Theorem C10_extension_asymmetry (run : Process) :
  let batch := batch_convert run docs None true true (world_of fs_upper) in
  let single := convert_docx_to_latex run (docs // "X.DOCX") None true true
                  (world_of fs_upper) in
  (forall (f : FileSystem) (d q : Path),
      In q (Fs.glob_docx f d) -> exists x, PurePath.name q = x +:+ ".docx")
  /\ Str.lower (PurePath.suffix (docs // "X.DOCX")) = ".docx"
  /\ Fs.glob_docx fs_upper docs = []
  /\ fst batch = Ok []
  /\ stdout (snd batch) = ["No .docx files found in /docs"]
  /\ spawned (snd batch) = []
  /\ spawned (snd single)
     = [["pandoc"; "/docs/X.DOCX"; "-s"; "--extract-media"; "/docs/X";
         "-o"; "/docs/X/X.tex"]].
Proof.
  intros batch single.
  split; [exact glob_docx_name|]. split; [reflexivity|].
  split; [vm_compute; reflexivity|].
  assert (Hb : fst batch = Ok [] /\
               stdout (snd batch) = ["No .docx files found in /docs"] /\
               spawned (snd batch) = []).
  { set (made := Fs.mkdir_parents docs (fs (world_of fs_upper))).
    assert (H1 : fst made = Ok tt) by (vm_compute; reflexivity).
    assert (H2 : Fs.glob_docx (snd made) docs = []) by (vm_compute; reflexivity).
    unfold batch.
    rewrite (batch_convert_run run docs None true true (world_of fs_upper)
               (snd made) eq_refl (pair_fst_snd made _ H1)).
    rewrite H2. cbn [fst snd print stdout spawned set_fs world_of].
    repeat split. }
  destruct Hb as (Hb1 & Hb2 & Hb3).
  split; [assumption|]. split; [assumption|]. split; [assumption|].
  set (made := Fs.mkdir_parents (doc_dir_of (docs // "X.DOCX") None)
                 (fs (world_of fs_upper))).
  assert (H1 : fst made = Ok tt) by (vm_compute; reflexivity).
  unfold single.
  rewrite (convert_spawned run (docs // "X.DOCX") None true true
             (world_of fs_upper) (snd made) eq_refl eq_refl
             (pair_fst_snd made _ H1)).
  reflexivity.
Qed.

(** C3, as amended.  For a directory whose output root can be made,
    [batch_convert] runs the single-file conversion on each of the N
    enumerated files in turn and returns the output paths of those that
    succeed, in order: N-K paths when K conversions raise, for whatever
    reason (validation, directory creation, the converter, archiving).
    Each failure adds one line, with the file name and the message, to
    the diagnostic stream and the loop goes on; with no file enumerated
    the batch reports it and returns the empty list; in every such case
    [main] exits with status 0. *)
Theorem C3_batch_isolates_failures
    (run : Process) (input_dir : Path) (output_dir : option Path)
    (standalone extract_media : bool) (w : World) (f1 : FileSystem) :
  Fs.is_dir (fs w) input_dir = true ->
  let output_path := match output_dir with Some x => x | None => input_dir end in
  Fs.mkdir_parents output_path (fs w) = (Ok tt, f1) ->
  let files := Fs.glob_docx f1 input_dir in
  let w1 :=
    match files with
    | [] => set_fs w f1
    | _ => snd (print ("Found " +:+ pretty (length files)
                       +:+ " Word document(s)" +:+ newline) (set_fs w f1))
    end in
  let items := fst (run_items run files output_path standalone extract_media w1) in
  let res := batch_convert run input_dir output_dir standalone extract_media w in
  List.map fst items = files
  /\ fst res = Ok (successes items)
  /\ length (successes items) = length files - length (failures items)
  /\ length (failures items) <= length files
  /\ stderr (snd res) =
       stderr w ++ List.map (fun fe => error_line (fst fe) (snd fe))
                            (failures items)
  /\ (forall f r, In (f, Ok r) items ->
                  In f files /\ r = output_path_of f (Some output_path))
  /\ (files = [] ->
      res = (Ok [], snd (print ("No .docx files found in "
                                +:+ PurePath.str input_dir) (set_fs w f1))))
  /\ (forall args : Args,
        input_path_of args = input_dir ->
        output_path_arg args = output_dir ->
        negb (no_standalone args) = standalone ->
        negb (no_media args) = extract_media ->
        fst (main run args w) = 0%Z).
Proof.
  intros Hd output_path Hm files w1 items res.
  assert (Hlen : length (successes items) + length (failures items)
                 = length files).
  { rewrite successes_failures_length. unfold items.
    rewrite <- (run_items_files run files output_path standalone
                  extract_media w1) at 2.
    now rewrite List.length_map. }
  split; [apply run_items_files|].
  assert (Hres : fst res = Ok (successes items)
                 /\ stderr (snd res) =
                      stderr w ++ List.map (fun fe => error_line (fst fe) (snd fe))
                                           (failures items)
                 /\ (files = [] ->
                     res = (Ok [], snd (print ("No .docx files found in "
                                               +:+ PurePath.str input_dir)
                                              (set_fs w f1))))).
  { unfold res.
    rewrite (batch_convert_run run input_dir output_dir standalone
               extract_media w f1 Hd Hm).
    fold output_path files. unfold items, w1.
    destruct files as [|f files'] eqn:Ef.
    - cbn. rewrite List.app_nil_r. auto.
    - cbv zeta. cbn [fst snd]. split; [reflexivity|]. split; [|discriminate].
      now rewrite run_items_stderr. }
  destruct Hres as (Hr & Hs & Hz).
  split; [assumption|]. split; [lia|]. split; [lia|]. split; [assumption|].
  split; [apply run_items_successes|]. split; [assumption|].
  intros args <- <- <- <-.
  rewrite main_exit, main_try_batch, batch_convert_completes by assumption.
  fold output_path. now rewrite Hm.
Qed.

Lemma C3_witness :
  let res := batch_convert pandoc_picky docs None true true (world_of fs_two) in
  fst res = Ok [PurePath.parse "/docs/b/b.tex"]
  /\ stderr (snd res) = ["Error converting a.docx: Pandoc error: boom"]
  /\ length (Fs.glob_docx fs_two docs) = 2
  /\ fst (main pandoc_picky (mkArgs "/docs" None false false) (world_of fs_two))
     = 0%Z.
Proof.
  intros res.
  split; [vm_compute; reflexivity|]. split; [vm_compute; reflexivity|].
  split; [vm_compute; reflexivity|].
  set (made := Fs.mkdir_parents docs (fs (world_of fs_two))).
  assert (H1 : Fs.is_dir (fs (world_of fs_two)) docs = true)
    by (vm_compute; reflexivity).
  assert (H2 : fst made = Ok tt) by (vm_compute; reflexivity).
  exact (proj2 (proj2 (proj2 (proj2 (proj2 (proj2 (proj2
           (C3_batch_isolates_failures pandoc_picky docs None true true
              (world_of fs_two) (snd made) H1 (pair_fst_snd made _ H2))))))))
           (mkArgs "/docs" None false false) eq_refl eq_refl eq_refl eq_refl).
Defined.

(** C3, as stated, fails when an item fails before the converter is
    started: with [report.docx] next to a regular file [report], one
    file is enumerated, no conversion by the external program fails
    (none is started, and this converter always exits with status 0),
    yet the batch returns no path where the claim promises one. *)
Lemma C3_counterexample_blocked_bundle :
  let res := batch_convert pandoc_ok docs None true true (world_of fs_blocked) in
  let items := fst (run_items pandoc_ok (Fs.glob_docx fs_blocked docs) docs
                      true true
                      (snd (print ("Found 1 Word document(s)" +:+ newline)
                                  (world_of fs_blocked)))) in
  Fs.is_dir fs_blocked docs = true
  /\ Fs.glob_docx fs_blocked docs = [docs // "report.docx"]
  /\ (forall cmd f, exists f', pandoc_ok cmd f = (Ok (mkCompleted 0 ""), f'))
  /\ spawned (snd res) = []
  /\ external_failures items = []
  /\ fst res = Ok []
  /\ stderr (snd res)
     = ["Error converting report.docx: [Errno 17] File exists: '/docs/report'"]
  /\ ~ (exists rs, fst res = Ok rs
                   /\ length rs = length (Fs.glob_docx fs_blocked docs)
                                  - length (external_failures items)).
Proof.
  intros res items.
  assert (Hres : fst res = Ok []) by (vm_compute; reflexivity).
  assert (Hn : length (Fs.glob_docx fs_blocked docs)
               - length (external_failures items) = 1)
    by (vm_compute; reflexivity).
  split; [vm_compute; reflexivity|]. split; [vm_compute; reflexivity|].
  split.
  { intros cmd f. unfold pandoc_ok. destruct (arg_after "-o" cmd); eauto. }
  split; [vm_compute; reflexivity|]. split; [vm_compute; reflexivity|].
  split; [exact Hres|]. split; [vm_compute; reflexivity|].
  intros (rs & Hrs & Hl). rewrite Hn in Hl. rewrite Hres in Hrs.
  injection Hrs as <-. clear -Hl. simpl in Hl. lia.
Qed.

(** C8. [main] exits with status 0 when the operation it dispatches to
    returns and with status 1 when it raises.  A batch returns whenever
    its output root can be made, whatever happens to its items.  A
    missing input, an input with the wrong extension and a converter
    that exits with a non-zero status in single-file mode all lead to
    status 1, and [batch_convert] on a path that is not a directory
    raises [NotADirectoryError]. *)
Theorem C8_exit_status (run : Process) (args : Args) (w : World) :
  let input_path := input_path_of args in
  let output_path := output_path_arg args in
  let standalone := negb (no_standalone args) in
  let extract_media := negb (no_media args) in
  let single :=
    convert_docx_to_latex run input_path output_path standalone extract_media w in
  let batch :=
    batch_convert run input_path output_path standalone extract_media w in
  let code := fst (main run args w) in
  code = (if Fs.is_dir (fs w) input_path
          then if is_ok (fst batch) then 0 else 1
          else if is_ok (fst single) then 0 else 1)%Z
  /\ (Fs.is_dir (fs w) input_path = true ->
      is_ok (fst batch) =
        is_ok (fst (Fs.mkdir_parents
                      (match output_path with Some x => x | None => input_path end)
                      (fs w))))
  /\ (Fs.is_dir (fs w) input_path = false ->
      fst batch = Raise (mkExn NotADirectoryError
                           ("Not a directory: " +:+ PurePath.str input_path)))
  /\ (Fs.exists_ (fs w) input_path = false -> code = 1%Z)
  /\ (Fs.exists_ (fs w) input_path = true ->
      Fs.is_dir (fs w) input_path = false ->
      Str.lower (PurePath.suffix input_path) <> ".docx" -> code = 1%Z)
  /\ (forall f1 cp f2,
        Fs.is_dir (fs w) input_path = false ->
        Fs.exists_ (fs w) input_path = true ->
        Str.lower (PurePath.suffix input_path) = ".docx" ->
        Fs.mkdir_parents (doc_dir_of input_path output_path) (fs w) = (Ok tt, f1) ->
        run (pandoc_cmd input_path (doc_dir_of input_path output_path)
               (output_path_of input_path output_path) standalone extract_media)
            f1 = (Ok cp, f2) ->
        returncode cp <> 0%Z -> code = 1%Z).
Proof.
  intros input_path output_path standalone extract_media single batch code.
  assert (Hcode : code = (if Fs.is_dir (fs w) input_path
                          then if is_ok (fst batch) then 0 else 1
                          else if is_ok (fst single) then 0 else 1)%Z).
  { unfold code. rewrite main_exit.
    destruct (Fs.is_dir (fs w) input_path) eqn:Hd.
    - now rewrite main_try_batch.
    - now rewrite main_try_single. }
  split; [assumption|]. split; [apply batch_convert_completes|].
  split; [intros Hd; unfold batch; now rewrite batch_convert_not_dir|].
  split; [|split].
  - intros He. rewrite Hcode.
    destruct (Fs.is_dir (fs w) input_path) eqn:Hd.
    + apply is_dir_exists in Hd. congruence.
    + unfold single. now rewrite convert_missing.
  - intros He Hd Hs. rewrite Hcode, Hd. unfold single.
    rewrite convert_bad_suffix; [reflexivity | assumption |].
    now apply String.eqb_neq.
  - intros f1 cp f2 Hd He Hs Hm Hr Hc. rewrite Hcode, Hd. unfold single.
    apply String.eqb_eq in Hs.
    rewrite (convert_run run _ _ _ _ _ _ He Hs Hm). cbv zeta. rewrite Hr.
    apply Z.eqb_neq in Hc. now rewrite Hc.
Qed.

Lemma C8_witness :
  fst (main pandoc_fail (mkArgs "/docs/report.docx" None false false)
         (world_of fs_report)) = 1%Z
  /\ fst (main pandoc_ok (mkArgs "/docs/report.docx" None false false)
            (world_of fs_report)) = 0%Z
  /\ fst (main pandoc_picky (mkArgs "/docs" None false false)
            (world_of fs_two)) = 0%Z
  /\ fst (main pandoc_ok (mkArgs "/docs/missing.docx" None false false)
            (world_of fs_report)) = 1%Z.
Proof.
  split; [|split; [vm_compute; reflexivity|];
             split; vm_compute; reflexivity].
  set (args := mkArgs "/docs/report.docx" None false false).
  set (made := Fs.mkdir_parents
                 (doc_dir_of (input_path_of args) (output_path_arg args))
                 (fs (world_of fs_report))).
  assert (H1 : Fs.is_dir (fs (world_of fs_report)) (input_path_of args) = false)
    by (vm_compute; reflexivity).
  assert (H2 : Fs.exists_ (fs (world_of fs_report)) (input_path_of args) = true)
    by (vm_compute; reflexivity).
  assert (H3 : Str.lower (PurePath.suffix (input_path_of args)) = ".docx")
    by (vm_compute; reflexivity).
  assert (H4 : fst made = Ok tt) by (vm_compute; reflexivity).
  assert (H5 : returncode (mkCompleted 1 "boom") <> 0%Z) by discriminate.
  exact (proj2 (proj2 (proj2 (proj2 (proj2
           (C8_exit_status pandoc_fail args (world_of fs_report))))))
           (snd made) (mkCompleted 1 "boom") (snd made)
           H1 H2 H3 (pair_fst_snd made _ H4) (pandoc_fail_run _ _) H5).
Defined.

(** * Further properties of the script *)

(** ** Directory creation in the script *)

(** X1. When the path of the bundle directory is taken by a regular
    file, the conversion of an existing [.docx] input raises
    [FileExistsError] with the world untouched: nothing is printed and
    the converter is not started. *)
Theorem X1_bundle_path_taken_by_file
    (run : Process) (input_file : Path) (output_dir : option Path)
    (standalone extract_media : bool) (w : World) :
  Fs.exists_ (fs w) input_file = true ->
  Str.lower (PurePath.suffix input_file) = ".docx" ->
  Fs.is_file (fs w) (doc_dir_of input_file output_dir) = true ->
  convert_docx_to_latex run input_file output_dir standalone extract_media w
  = (Raise (mkExn FileExistsError
              ("[Errno 17] File exists: '"
               +:+ PurePath.str (doc_dir_of input_file output_dir) +:+ "'")),
     w).
Proof.
  intros H1 H2 H3. apply String.eqb_eq in H2.
  rewrite (convert_mkdir_fail run _ _ _ _ _ _ _ H1 H2
             (mkdir_parents_file _ _ H3)).
  now rewrite set_fs_same.
Qed.

Lemma X1_witness :
  PurePath.str (doc_dir_of (docs // "report.docx") None) = "/docs/report"
  /\ convert_docx_to_latex pandoc_ok (docs // "report.docx") None true true
       (world_of fs_blocked)
     = (Raise (mkExn FileExistsError
                 ("[Errno 17] File exists: '"
                  +:+ PurePath.str (doc_dir_of (docs // "report.docx") None)
                  +:+ "'")),
        world_of fs_blocked).
Proof.
  split; [vm_compute; reflexivity|].
  assert (H1 : Fs.exists_ (fs (world_of fs_blocked)) (docs // "report.docx")
               = true) by (vm_compute; reflexivity).
  assert (H2 : Str.lower (PurePath.suffix (docs // "report.docx")) = ".docx")
    by (vm_compute; reflexivity).
  assert (H3 : Fs.is_file (fs (world_of fs_blocked))
                 (doc_dir_of (docs // "report.docx") None) = true)
    by (vm_compute; reflexivity).
  exact (X1_bundle_path_taken_by_file pandoc_ok (docs // "report.docx") None
           true true (world_of fs_blocked) H1 H2 H3).
Defined.

(** X2. In a batch over a directory with no output directory given, no
    exception escapes [batch_convert]: the output root is the input
    directory itself, making it is a no-op, and whatever the conversion
    of an item raises is caught in the loop.  So when every run of the
    converter comes to an end, with whatever exit status or exception,
    [batch_convert] returns a list and never raises, and [main] exits
    with status 0.  (The converter is a function of the command line
    and the file system here: a run that never ends is not covered.) *)
Theorem X2_batch_in_place_raises_nothing
    (run : Process) (input_dir : Path) (standalone extract_media : bool)
    (w : World) :
  Fs.is_dir (fs w) input_dir = true ->
  (exists rs w',
      batch_convert run input_dir None standalone extract_media w = (Ok rs, w'))
  /\ (forall e w',
        batch_convert run input_dir None standalone extract_media w
        <> (Raise e, w'))
  /\ (forall args : Args,
        input_path_of args = input_dir ->
        output_path_arg args = None ->
        negb (no_standalone args) = standalone ->
        negb (no_media args) = extract_media ->
        fst (main run args w) = 0%Z).
Proof.
  intros Hd.
  pose proof (mkdir_parents_existing _ _ Hd) as Hm.
  assert (Hok : exists rs w',
             batch_convert run input_dir None standalone extract_media w
             = (Ok rs, w')).
  { rewrite (batch_convert_run run input_dir None standalone extract_media
               w (fs w) Hd Hm).
    destruct (Fs.glob_docx (fs w) input_dir); eauto. }
  split; [exact Hok|]. split.
  - intros e w' E. destruct Hok as (rs & w'' & E'). congruence.
  - intros args <- Ho <- <-.
    rewrite main_exit, main_try_batch, batch_convert_completes by assumption.
    rewrite Ho. now rewrite Hm.
Qed.

Lemma X2_witness :
  fst (main pandoc_fail (mkArgs "/docs" None false false) (world_of fs_two))
  = 0%Z.
Proof.
  assert (H1 : Fs.is_dir (fs (world_of fs_two))
                 (input_path_of (mkArgs "/docs" None false false)) = true)
    by (vm_compute; reflexivity).
  exact (proj2 (proj2 (X2_batch_in_place_raises_nothing pandoc_fail
                  (input_path_of (mkArgs "/docs" None false false)) true true
                  (world_of fs_two) H1))
           (mkArgs "/docs" None false false) eq_refl eq_refl eq_refl eq_refl).
Defined.

(** X3. When the output root of a batch is taken by a regular file, the
    batch raises [FileExistsError] before it enumerates anything: the
    world is untouched, no item is converted, and [main] exits with
    status 1. *)
Theorem X3_batch_output_root_taken_by_file
    (run : Process) (input_dir output_dir : Path)
    (standalone extract_media : bool) (w : World) :
  Fs.is_dir (fs w) input_dir = true ->
  Fs.is_file (fs w) output_dir = true ->
  batch_convert run input_dir (Some output_dir) standalone extract_media w
  = (Raise (mkExn FileExistsError
              ("[Errno 17] File exists: '" +:+ PurePath.str output_dir +:+ "'")),
     w)
  /\ (forall args : Args,
        input_path_of args = input_dir ->
        output_path_arg args = Some output_dir ->
        negb (no_standalone args) = standalone ->
        negb (no_media args) = extract_media ->
        fst (main run args w) = 1%Z).
Proof.
  intros Hd Hf.
  pose proof (mkdir_parents_file _ _ Hf) as Hm.
  split.
  - rewrite (batch_convert_mkdir_fail run input_dir (Some output_dir)
               standalone extract_media w _ _ Hd Hm).
    now rewrite set_fs_same.
  - intros args <- Ho <- <-.
    rewrite main_exit, main_try_batch, batch_convert_completes by assumption.
    rewrite Ho. now rewrite Hm.
Qed.

Lemma X3_witness :
  fst (main pandoc_ok (mkArgs "/docs" (Some "/docs/report.docx") false false)
         (world_of fs_report)) = 1%Z.
Proof.
  set (args := mkArgs "/docs" (Some "/docs/report.docx") false false).
  assert (H1 : Fs.is_dir (fs (world_of fs_report)) (input_path_of args) = true)
    by (vm_compute; reflexivity).
  assert (H2 : Fs.is_file (fs (world_of fs_report))
                 (PurePath.parse "/docs/report.docx") = true)
    by (vm_compute; reflexivity).
  exact (proj2 (X3_batch_output_root_taken_by_file pandoc_ok
                  (input_path_of args) (PurePath.parse "/docs/report.docx")
                  true true (world_of fs_report) H1 H2)
           args eq_refl eq_refl eq_refl eq_refl).
Defined.

(** X4. Neither a conversion nor the archiver writes to the diagnostic
    stream, whatever happens: reporting an error is left to the callers
    ([batch_convert] per item, [main] at the top). *)
Theorem X4_conversion_never_writes_stderr
    (run : Process) (input_file : Path) (output_dir : option Path)
    (standalone extract_media : bool) (doc_dir : Path) (doc_name : string)
    (w : World) :
  stderr (snd (convert_docx_to_latex run input_file output_dir
                 standalone extract_media w)) = stderr w
  /\ stderr (snd (create_zip_archive doc_dir doc_name w)) = stderr w.
Proof.
  split; [apply convert_stderr | apply create_zip_archive_stderr].
Qed.

(** X5. A conversion that returns has printed exactly three lines to
    standard output, in this order: the [Converting:] line with the
    input name and [<stem>/<output name>], the [Successfully created:]
    line with the returned path, and the [Created archive:] line with
    the path of the archive in the bundle directory. *)
Theorem X5_progress_lines_of_a_success
    (run : Process) (input_file : Path) (output_dir : option Path)
    (standalone extract_media : bool) (w w' : World) (r : Path) :
  convert_docx_to_latex run input_file output_dir standalone extract_media w
    = (Ok r, w') ->
  stdout w' =
    stdout w
    ++ ["Converting: " +:+ PurePath.name input_file +:+ " -> "
        +:+ PurePath.stem input_file +:+ "/" +:+ PurePath.name r;
        "Successfully created: " +:+ PurePath.str r;
        "Created archive: "
        +:+ PurePath.str (doc_dir_of input_file output_dir
                          // (PurePath.stem input_file +:+ ".zip"))].
Proof.
  intros H. rewrite (convert_ok_stdout run _ _ _ _ _ _ _ H).
  apply convert_ok_inv in H as (_ & _ & -> & _). reflexivity.
Qed.

Lemma X5_witness :
  let res := convert_docx_to_latex pandoc_ok (docs // "report.docx") None
               true true (world_of fs_report) in
  fst res = Ok (PurePath.parse "/docs/report/report.tex")
  /\ stdout (snd res) = ["Converting: report.docx -> report/report.tex";
                         "Successfully created: /docs/report/report.tex";
                         "Created archive: /docs/report/report.zip"]
  /\ stdout (snd res) =
       stdout (world_of fs_report)
       ++ ["Converting: " +:+ PurePath.name (docs // "report.docx") +:+ " -> "
           +:+ PurePath.stem (docs // "report.docx") +:+ "/"
           +:+ PurePath.name (PurePath.parse "/docs/report/report.tex");
           "Successfully created: "
           +:+ PurePath.str (PurePath.parse "/docs/report/report.tex");
           "Created archive: "
           +:+ PurePath.str (doc_dir_of (docs // "report.docx") None
                             // (PurePath.stem (docs // "report.docx")
                                 +:+ ".zip"))].
Proof.
  intros res.
  assert (H : fst res = Ok (PurePath.parse "/docs/report/report.tex"))
    by (vm_compute; reflexivity).
  split; [exact H|]. split; [vm_compute; reflexivity|].
  exact (X5_progress_lines_of_a_success pandoc_ok (docs // "report.docx") None
           true true (world_of fs_report) (snd res)
           (PurePath.parse "/docs/report/report.tex") (pair_fst_snd res _ H)).
Defined.

(** X6. Archiving touches nothing but the archive: whatever the outcome,
    every path other than [<bundle>/<base>.zip] is left as it was, no
    line is printed and no process is started. *)
Theorem X6_archiver_frame
    (doc_dir : Path) (doc_name : string) (w : World) (q : Path) :
  q <> doc_dir // (doc_name +:+ ".zip") ->
  let w' := snd (create_zip_archive doc_dir doc_name w) in
  fs w' !! q = fs w !! q
  /\ stdout w' = stdout w /\ stderr w' = stderr w /\ spawned w' = spawned w.
Proof.
  intros Hq w'.
  split; [|split; [apply create_zip_archive_stdout
                  | apply create_zip_archive_stderr]].
  unfold w'. destruct (create_zip_archive_fs doc_dir doc_name w) as [Hok Hraise].
  destruct (fst (Fs.open_w _ (fs w))) as [[]|e] eqn:E.
  - destruct (Hok eq_refl) as [-> _]. cbn [snd fs set_fs].
    now rewrite lookup_insert_ne by congruence.
  - now rewrite (Hraise e eq_refl).
Qed.

Lemma X6_witness :
  fs (snd (create_zip_archive bundle "report" (world_of fs_bundle)))
    !! (bundle // "report.tex")
  = fs (world_of fs_bundle) !! (bundle // "report.tex").
Proof.
  assert (H : bundle // "report.tex" <> bundle // ("report" +:+ ".zip"))
    by (vm_compute; discriminate).
  exact (proj1 (X6_archiver_frame bundle "report" (world_of fs_bundle)
                  (bundle // "report.tex") H)).
Defined.

(** X7. When [<bundle>/<base>.zip] is a directory, the archiver raises
    [IsADirectoryError] and changes nothing. *)
Theorem X7_archive_path_is_a_directory
    (doc_dir : Path) (doc_name : string) (w : World) :
  Fs.is_dir (fs w) (doc_dir // (doc_name +:+ ".zip")) = true ->
  create_zip_archive doc_dir doc_name w
  = (Raise (mkExn IsADirectoryError
              ("[Errno 21] Is a directory: '"
               +:+ PurePath.str (doc_dir // (doc_name +:+ ".zip")) +:+ "'")),
     w).
Proof.
  intros H.
  apply (proj2 (create_zip_archive_fs doc_dir doc_name w)).
  unfold Fs.open_w. unfold Fs.is_dir in H.
  now destruct (Fs.stat (fs w) _) as [[d|]|].
Qed.

Lemma X7_witness :
  fst (create_zip_archive bundle "report" (world_of fs_zipdir))
  = Raise (mkExn IsADirectoryError
             "[Errno 21] Is a directory: '/out/report/report.zip'")
  /\ create_zip_archive bundle "report" (world_of fs_zipdir)
     = (Raise (mkExn IsADirectoryError
                 ("[Errno 21] Is a directory: '"
                  +:+ PurePath.str (bundle // ("report" +:+ ".zip")) +:+ "'")),
        world_of fs_zipdir).
Proof.
  split; [vm_compute; reflexivity|].
  assert (H : Fs.is_dir (fs (world_of fs_zipdir))
                (bundle // ("report" +:+ ".zip")) = true)
    by (vm_compute; reflexivity).
  exact (X7_archive_path_is_a_directory bundle "report" (world_of fs_zipdir) H).
Defined.

(** X8. When the bundle directory does not exist, the archiver raises
    [FileNotFoundError] (or [NotADirectoryError], when a component on
    the way is a regular file) and changes nothing: it never creates the
    directory itself. *)
Theorem X8_archive_without_bundle_directory
    (doc_dir : Path) (doc_name : string) (w : World) :
  Str.contains PurePath.slash doc_name = false ->
  Fs.is_tree (fs w) = true ->
  Fs.exists_ (fs w) doc_dir = false ->
  exists e,
    create_zip_archive doc_dir doc_name w = (Raise e, w)
    /\ (kind e = FileNotFoundError \/ kind e = NotADirectoryError).
Proof.
  intros Hn Ht He.
  set (zip_path := doc_dir // (doc_name +:+ ".zip")).
  assert (Hpar : PurePath.parent zip_path = doc_dir)
    by (unfold zip_path; now apply zip_parent).
  assert (Hsd : Fs.stat (fs w) doc_dir = None)
    by (unfold Fs.exists_ in He; now destruct (Fs.stat (fs w) doc_dir)).
  assert (Hsz : Fs.stat (fs w) zip_path = None).
  { destruct (Fs.stat (fs w) zip_path) as [nd|] eqn:Es; [|reflexivity].
    exfalso. unfold Fs.stat in Es.
    assert (Hp : parts zip_path <> []).
    { unfold zip_path. rewrite (zip_path_parts _ _ Hn). cbn [parts].
      now destruct (parts doc_dir). }
    destruct (parts zip_path); [congruence|].
    rewrite is_tree_spec in Ht. specialize (Ht _ _ Es).
    rewrite Hpar in Ht. apply is_dir_exists in Ht. congruence. }
  assert (Hopen : exists e, Fs.open_w zip_path (fs w) = (Raise e, fs w)
                  /\ (kind e = FileNotFoundError \/ kind e = NotADirectoryError)).
  { unfold Fs.open_w, Fs.resolve_parent. rewrite Hsz, Hpar, Hsd.
    destruct (existsb _ _); eexists; (split; [reflexivity|]); simpl; auto. }
  destruct Hopen as (e & Ho & Hk). exists e. split; [|assumption].
  apply (proj2 (create_zip_archive_fs doc_dir doc_name w)).
  fold zip_path. now rewrite Ho.
Qed.

Lemma X8_witness :
  fst (create_zip_archive (PurePath.parse "/nowhere/report") "report"
         (world_of fs_report))
  = Raise (mkExn FileNotFoundError
             "[Errno 2] No such file or directory: '/nowhere/report/report.zip'")
  /\ exists e,
       create_zip_archive (PurePath.parse "/nowhere/report") "report"
         (world_of fs_report) = (Raise e, world_of fs_report)
       /\ (kind e = FileNotFoundError \/ kind e = NotADirectoryError).
Proof.
  split; [vm_compute; reflexivity|].
  assert (H1 : Str.contains PurePath.slash "report" = false)
    by (vm_compute; reflexivity).
  assert (H2 : Fs.is_tree (fs (world_of fs_report)) = true)
    by (vm_compute; reflexivity).
  assert (H3 : Fs.exists_ (fs (world_of fs_report))
                 (PurePath.parse "/nowhere/report") = false)
    by (vm_compute; reflexivity).
  exact (X8_archive_without_bundle_directory (PurePath.parse "/nowhere/report")
           "report" (world_of fs_report) H1 H2 H3).
Defined.

(** X9. Archiving a bundle under a base name without a slash is
    idempotent: once an archive has been written, archiving the same
    bundle again returns the same path and leaves the same world.  The
    archive of the first run is overwritten and is no source of a
    member of the second: the archive path is not the path of the
    primary output, nor the media directory, nor any path enumerated
    below the media directory in any file system; and whatever regular
    file sits at the archive path before a call has no influence on
    its result.  (With a slash in the base name, as in [media/x], the
    archive path can lie below the media directory.) *)
Theorem X9_archiving_twice
    (doc_dir : Path) (doc_name : string) (w : World) :
  let zip_path := doc_dir // (doc_name +:+ ".zip") in
  let tex_file := doc_dir // (doc_name +:+ ".tex") in
  let media_dir := doc_dir // "media" in
  Str.contains PurePath.slash doc_name = false ->
  fst (Fs.open_w zip_path (fs w)) = Ok tt ->
  create_zip_archive doc_dir doc_name
    (snd (create_zip_archive doc_dir doc_name w))
  = create_zip_archive doc_dir doc_name w
  /\ zip_path <> tex_file
  /\ zip_path <> media_dir
  /\ (forall (f : FileSystem) (q : Path),
         In q (Fs.rglob_star f media_dir) -> q <> zip_path)
  /\ (forall d0 d1 : file_data,
         create_zip_archive doc_dir doc_name
           (set_fs w (<[zip_path := File d0]> (fs w)))
         = create_zip_archive doc_dir doc_name
             (set_fs w (<[zip_path := File d1]> (fs w)))).
Proof.
  intros zip_path tex_file media_dir Hns H.
  destruct (proj1 (create_zip_archive_fs doc_dir doc_name w) H) as [E Hp].
  fold zip_path in E, Hp.
  assert (Hover : forall d0,
             create_zip_archive doc_dir doc_name
               (set_fs w (<[zip_path := File d0]> (fs w)))
             = (Ok zip_path,
                set_fs w
                  (<[zip_path :=
                       File (Zip (archive_members
                                    (<[zip_path := File (Raw "")]> (fs w))
                                    doc_dir doc_name))]> (fs w)))).
  { intros d0. set (w0 := set_fs w (<[zip_path := File d0]> (fs w))).
    assert (H0 : fst (Fs.open_w zip_path (fs w0)) = Ok tt).
    { unfold Fs.open_w, w0. cbn [fs set_fs].
      now rewrite (stat_insert_eq _ _ _ Hp). }
    destruct (proj1 (create_zip_archive_fs doc_dir doc_name w0) H0) as [E0 _].
    fold zip_path in E0. rewrite E0. f_equal.
    unfold w0, set_fs. cbn [fs stdout stderr spawned].
    now rewrite !insert_insert_eq. }
  split; [|split; [|split; [|split]]].
  - rewrite E. cbn [snd].
    set (ms := archive_members (<[zip_path := File (Raw "")]> (fs w))
                 doc_dir doc_name) in *.
    set (w2 := set_fs w (<[zip_path := File (Zip ms)]> (fs w))).
    assert (H2 : fst (Fs.open_w zip_path (fs w2)) = Ok tt).
    { unfold Fs.open_w, w2. cbn [fs set_fs].
      now rewrite (stat_insert_eq _ _ _ Hp). }
    destruct (proj1 (create_zip_archive_fs doc_dir doc_name w2) H2) as [E2 _].
    fold zip_path in E2. rewrite E2. f_equal.
    unfold w2. cbn [fs set_fs]. rewrite !insert_insert_eq. reflexivity.
  - now apply zip_not_tex.
  - now apply zip_not_media.
  - intros f q Hin Eq. apply rglob_star_In in Hin as (_ & _ & Hb).
    exact (zip_not_below_media doc_dir doc_name Hns q Hb (eq_sym Eq)).
  - intros d0 d1. now rewrite !Hover.
Qed.

Lemma X9_witness :
  create_zip_archive bundle "report"
    (snd (create_zip_archive bundle "report" (world_of fs_bundle)))
  = create_zip_archive bundle "report" (world_of fs_bundle)
  /\ (forall (f : FileSystem) (q : Path),
         In q (Fs.rglob_star f (bundle // "media")) ->
         q <> bundle // ("report" +:+ ".zip")).
Proof.
  assert (H0 : Str.contains PurePath.slash "report" = false)
    by (vm_compute; reflexivity).
  assert (H : fst (Fs.open_w (bundle // ("report" +:+ ".zip"))
                     (fs (world_of fs_bundle))) = Ok tt)
    by (vm_compute; reflexivity).
  destruct (X9_archiving_twice bundle "report" (world_of fs_bundle) H0 H)
    as (E & _ & _ & R & _).
  split; [exact E | exact R].
Defined.

(** X10. A conversion that returns leaves the archive in the bundle
    directory: [<bundle>/<stem>.zip] holds the members collected from
    the file system the converter left, and every other path is exactly
    as the converter left it. *)
Theorem X10_success_leaves_the_archive
    (run : Process) (input_file : Path) (output_dir : option Path)
    (standalone extract_media : bool) (w w' : World) (r : Path) :
  convert_docx_to_latex run input_file output_dir standalone extract_media w
    = (Ok r, w') ->
  let doc_dir := doc_dir_of input_file output_dir in
  let zip_path := doc_dir // (PurePath.stem input_file +:+ ".zip") in
  exists (f1 f2 : FileSystem) (cp : CompletedProcess),
    Fs.mkdir_parents doc_dir (fs w) = (Ok tt, f1)
    /\ run (pandoc_cmd input_file doc_dir r standalone extract_media) f1
       = (Ok cp, f2)
    /\ fs w' !! zip_path
       = Some (File (Zip (archive_members (<[zip_path := File (Raw "")]> f2)
                            doc_dir (PurePath.stem input_file))))
    /\ forall q, q <> zip_path -> fs w' !! q = f2 !! q.
Proof.
  intros H doc_dir zip_path.
  apply convert_ok_inv in H
    as (_ & _ & -> & f1 & cp & f2 & f3 & Hm & Hr & _ & Ho & Hfs).
  fold doc_dir zip_path in Hm, Hr, Ho, Hfs.
  apply open_w_ok_inv in Ho as [-> _].
  exists f1, f2, cp. split; [assumption|]. split; [assumption|].
  rewrite Hfs, insert_insert_eq. split.
  - apply lookup_insert_eq.
  - intros q Hq. now rewrite lookup_insert_ne by congruence.
Qed.

Lemma X10_witness :
  let res := convert_docx_to_latex pandoc_ok (docs // "report.docx") None
               true true (world_of fs_report) in
  fst res = Ok (PurePath.parse "/docs/report/report.tex")
  /\ fs (snd res) !! PurePath.parse "/docs/report/report.zip"
     = Some (File (Zip [mkZipInfo "report.tex" ZIP_DEFLATED (Raw "tex")]))
  /\ exists (f1 f2 : FileSystem) (cp : CompletedProcess),
       Fs.mkdir_parents (doc_dir_of (docs // "report.docx") None)
         (fs (world_of fs_report)) = (Ok tt, f1)
       /\ pandoc_ok (pandoc_cmd (docs // "report.docx")
                       (doc_dir_of (docs // "report.docx") None)
                       (PurePath.parse "/docs/report/report.tex") true true) f1
          = (Ok cp, f2).
Proof.
  intros res.
  assert (H : fst res = Ok (PurePath.parse "/docs/report/report.tex"))
    by (vm_compute; reflexivity).
  split; [exact H|]. split; [vm_compute; reflexivity|].
  destruct (X10_success_leaves_the_archive pandoc_ok (docs // "report.docx")
              None true true (world_of fs_report) (snd res)
              (PurePath.parse "/docs/report/report.tex") (pair_fst_snd res _ H))
    as (f1 & f2 & cp & Hm & Hr & _).
  exists f1, f2, cp. split; [exact Hm | exact Hr].
Defined.

(** ** Processes started by a batch *)

Section SpawnFacts.

Variable run : Process.

(** One conversion starts no process or exactly one, the converter on
    its own file; when it returns, it has started it and returns its
    own output path. *)
Lemma convert_started i o sa em w :
  exists b : bool,
    spawned (snd (convert_docx_to_latex run i o sa em w))
    = spawned w
      ++ (if b then [pandoc_cmd i (doc_dir_of i o) (output_path_of i o) sa em]
          else [])
    /\ (forall r, fst (convert_docx_to_latex run i o sa em w) = Ok r ->
                  b = true /\ r = output_path_of i o).
Proof.
  destruct (Fs.exists_ (fs w) i) eqn:H1.
  2:{ exists false. rewrite convert_missing by assumption.
      cbn [fst snd]. rewrite List.app_nil_r. split; [reflexivity|].
      intros r [=]. }
  destruct (String.eqb (Str.lower (PurePath.suffix i)) ".docx") eqn:H2.
  2:{ exists false. rewrite convert_bad_suffix by assumption.
      cbn [fst snd]. rewrite List.app_nil_r. split; [reflexivity|].
      intros r [=]. }
  destruct (Fs.mkdir_parents (doc_dir_of i o) (fs w)) as [[[]|e] f1] eqn:H3.
  - exists true. rewrite (convert_spawned run _ _ _ _ _ f1 H1 H2 H3).
    split; [reflexivity|]. intros r Hr. split; [reflexivity|].
    destruct (convert_docx_to_latex run i o sa em w) as [r' w'] eqn:E.
    cbn [fst] in Hr. subst r'.
    now apply convert_ok_inv in E as (_ & _ & -> & _).
  - exists false. rewrite (convert_mkdir_fail run _ _ _ _ _ _ _ H1 H2 H3).
    cbn [fst snd set_fs spawned]. rewrite List.app_nil_r.
    split; [reflexivity|]. intros r [=].
Qed.

(** The processes started by the loop are the converter's command lines
    for a sub-list of the files, in the order of the files; the paths
    returned are output paths of files of that sub-list, in that
    order. *)
Lemma run_items_started files out sa em :
  forall w,
    exists started : list Path,
      sublist started files
      /\ spawned (snd (run_items run files out sa em w))
         = spawned w
           ++ List.map (fun f => pandoc_cmd f (doc_dir_of f (Some out))
                                   (output_path_of f (Some out)) sa em)
                       started
      /\ sublist (successes (fst (run_items run files out sa em w)))
                 (List.map (fun f => output_path_of f (Some out)) started).
Proof.
  induction files as [|f files IH]; intros w.
  - exists []. cbn. rewrite List.app_nil_r. repeat split; constructor.
  - cbn [run_items].
    destruct (convert_started f (Some out) sa em w) as (b & Hs1 & Hok1).
    destruct (convert_docx_to_latex run f (Some out) sa em w) as [r w1].
    cbn [fst snd] in Hs1, Hok1.
    set (w2 := match r with
               | Ok _ => w1
               | Raise e => snd (eprint (error_line f e) w1)
               end).
    assert (Hw2 : spawned w2 = spawned w1) by (unfold w2; now destruct r).
    destruct (IH w2) as (st & Hsub & Hs2 & Hrs).
    destruct (run_items run files out sa em w2) as [rs w3].
    cbn [fst snd] in *. rewrite Hs2, Hw2, Hs1, <- List.app_assoc.
    destruct b.
    + exists (f :: st). split; [now constructor|]. split; [reflexivity|].
      cbn [List.map successes]. destruct r as [r|e].
      * destruct (Hok1 r eq_refl) as [_ ->]. now constructor.
      * now constructor.
    + exists st. split; [now constructor|]. split; [reflexivity|].
      cbn [successes]. destruct r as [r|e]; [|assumption].
      now destruct (Hok1 r eq_refl).
Qed.

End SpawnFacts.

(** X11. A batch never retries and never converts a file it did not
    enumerate.  The converter is started for a sub-list of the
    enumerated files, one process per file of that sub-list, in the
    order of the enumeration, each time with the command line of that
    file; as the enumeration has no repetition, no file is converted
    twice.  The paths returned are the output paths of files the
    converter was started for, again in that order. *)
Theorem X11_batch_starts_at_most_one_process_per_file
    (run : Process) (input_dir : Path) (output_dir : option Path)
    (standalone extract_media : bool) (w : World) (f1 : FileSystem) :
  let out := match output_dir with Some x => x | None => input_dir end in
  let res := batch_convert run input_dir output_dir standalone extract_media w in
  Fs.is_dir (fs w) input_dir = true ->
  Fs.mkdir_parents out (fs w) = (Ok tt, f1) ->
  exists (started rs : list Path),
    fst res = Ok rs
    /\ sublist started (Fs.glob_docx f1 input_dir)
    /\ List.NoDup started
    /\ spawned (snd res)
       = spawned w
         ++ List.map (fun f => pandoc_cmd f (doc_dir_of f (Some out))
                                 (output_path_of f (Some out))
                                 standalone extract_media)
                     started
    /\ sublist rs (List.map (fun f => output_path_of f (Some out)) started).
Proof.
  intros out res Hd Hm. unfold res.
  rewrite (batch_convert_run run input_dir output_dir standalone
             extract_media w f1 Hd Hm).
  pose proof (glob_docx_NoDup f1 input_dir) as Hnd.
  destruct (Fs.glob_docx f1 input_dir) as [|f files] eqn:G.
  - exists [], []. cbn. rewrite List.app_nil_r.
    repeat split; constructor.
  - cbv zeta.
    match goal with
    | |- context [run_items run ?fl ?o ?a ?b ?w0] =>
        destruct (run_items_started run fl o a b w0) as (st & Hsub & Hs & Hrs)
    end.
    exists st. eexists. cbn [fst snd]. split; [reflexivity|].
    split; [exact Hsub|]. split.
    + apply NoDup_ListNoDup. eapply sublist_NoDup; [|exact Hsub].
      now apply NoDup_ListNoDup.
    + split; [exact Hs | exact Hrs].
Qed.

Lemma X11_witness :
  let res := batch_convert pandoc_picky docs None true true (world_of fs_two) in
  length (spawned (snd res)) = 2
  /\ fst res = Ok [docs // "b" // "b.tex"]
  /\ exists (started rs : list Path),
       fst res = Ok rs
       /\ sublist started
            (Fs.glob_docx (snd (Fs.mkdir_parents docs (fs (world_of fs_two))))
               docs)
       /\ List.NoDup started
       /\ spawned (snd res)
          = spawned (world_of fs_two)
            ++ List.map (fun f => pandoc_cmd f (doc_dir_of f (Some docs))
                                    (output_path_of f (Some docs)) true true)
                        started
       /\ sublist rs (List.map (fun f => output_path_of f (Some docs)) started).
Proof.
  intros res. split; [vm_compute; reflexivity|].
  split; [vm_compute; reflexivity|].
  set (made := Fs.mkdir_parents docs (fs (world_of fs_two))).
  assert (H1 : Fs.is_dir (fs (world_of fs_two)) docs = true)
    by (vm_compute; reflexivity).
  assert (H2 : fst made = Ok tt) by (vm_compute; reflexivity).
  exact (X11_batch_starts_at_most_one_process_per_file pandoc_picky docs None
           true true (world_of fs_two) (snd made) H1 (pair_fst_snd made _ H2)).
Defined.

(** ** What [main] reports *)

Lemma main_single_run (run : Process) (args : Args) (w : World) :
  Fs.is_dir (fs w) (input_path_of args) = false ->
  main run args w =
    match convert_docx_to_latex run (input_path_of args) (output_path_arg args)
            (negb (no_standalone args)) (negb (no_media args)) w with
    | (Ok _, w') => (0%Z, w')
    | (Raise e, w') => (1%Z, snd (eprint ("Error: " +:+ message e) w'))
    end.
Proof.
  intros Hd. unfold main, main_try. cbv zeta.
  unfold bind at 1. unfold Path_is_dir at 1. cbv beta iota. rewrite Hd.
  unfold bind at 1.
  now destruct (convert_docx_to_latex run _ _ _ _ w) as [[r|e] w1].
Qed.

(** X12. In single-file mode [main] adds to the diagnostic stream
    exactly the line [Error: <message>] when the conversion raises and
    nothing when it returns, and its standard output is that of the
    conversion. *)
Theorem X12_main_reports_the_error_once
    (run : Process) (args : Args) (w : World) :
  Fs.is_dir (fs w) (input_path_of args) = false ->
  let single :=
    convert_docx_to_latex run (input_path_of args) (output_path_arg args)
      (negb (no_standalone args)) (negb (no_media args)) w in
  stderr (snd (main run args w)) =
    stderr w ++ match fst single with
                | Ok _ => []
                | Raise e => ["Error: " +:+ message e]
                end
  /\ stdout (snd (main run args w)) = stdout (snd single).
Proof.
  intros Hd single.
  pose proof (convert_stderr run (input_path_of args) (output_path_arg args)
                (negb (no_standalone args)) (negb (no_media args)) w) as Hs.
  fold single in Hs. rewrite (main_single_run run args w Hd). fold single.
  destruct single as [[r|e] w1]; cbn [fst snd eprint stderr stdout] in *.
  - now rewrite List.app_nil_r.
  - now rewrite Hs.
Qed.

Lemma X12_witness :
  stderr (snd (main pandoc_fail (mkArgs "/docs/report.docx" None false false)
                 (world_of fs_report)))
  = ["Error: Pandoc error: boom"]
  /\ stdout (snd (main pandoc_fail (mkArgs "/docs/report.docx" None false false)
                    (world_of fs_report)))
     = stdout (snd (convert_docx_to_latex pandoc_fail
                      (input_path_of (mkArgs "/docs/report.docx" None false false))
                      (output_path_arg (mkArgs "/docs/report.docx" None false false))
                      (negb false) (negb false) (world_of fs_report))).
Proof.
  split; [vm_compute; reflexivity|].
  assert (H : Fs.is_dir (fs (world_of fs_report))
                (input_path_of (mkArgs "/docs/report.docx" None false false))
              = false) by (vm_compute; reflexivity).
  exact (proj2 (X12_main_reports_the_error_once pandoc_fail
                  (mkArgs "/docs/report.docx" None false false)
                  (world_of fs_report) H)).
Defined.

(** ** Extensions in any capitalisation *)

Section SuffixFacts.

#[local] Arguments append (_ _)%_string_scope : simpl nomatch.

Lemma lower_ascii_dot (a : ascii) :
  Str.lower_ascii a = PurePath.dot -> a = PurePath.dot.
Proof.
  destruct a as [[] [] [] [] [] [] [] []]; vm_compute; intros H;
    first [reflexivity | discriminate H].
Qed.

Lemma lower_length (s : string) : String.length (Str.lower s) = String.length s.
Proof. induction s as [|a s IH]; simpl; [reflexivity | now rewrite IH]. Qed.

Lemma rfind_dot_lower (s : string) :
  Str.rfind PurePath.dot (Str.lower s) = None ->
  Str.rfind PurePath.dot s = None.
Proof.
  induction s as [|a s IH]; simpl; [reflexivity|].
  destruct (Str.rfind PurePath.dot (Str.lower s)); [discriminate|].
  rewrite (IH eq_refl).
  destruct (Ascii.eqb (Str.lower_ascii a) PurePath.dot) eqn:E; [discriminate|].
  intros _. destruct (Ascii.eqb_spec a PurePath.dot) as [->|]; [|reflexivity].
  discriminate E.
Qed.

(** A string that lower-cases to [.docx] is a dot followed by four
    characters, none of them a dot. *)
Lemma lower_docx_shape (e : string) :
  Str.lower e = ".docx" ->
  Str.rfind PurePath.dot e = Some 0 /\ String.length e = 5.
Proof.
  intros H. split; [|now rewrite <- lower_length, H].
  destruct e as [|a e]; [discriminate|]. simpl in H. injection H as Ha He.
  apply lower_ascii_dot in Ha. subst a. simpl.
  now rewrite (rfind_dot_lower e) by now rewrite He.
Qed.

Lemma has_suffix_ext (x e : string) :
  x <> "" -> Str.rfind PurePath.dot e = Some 0 -> 2 <= String.length e ->
  PurePath.has_suffix (x +:+ e) = Some (String.length x).
Proof.
  intros Hx He Hl. unfold PurePath.has_suffix.
  rewrite (rfind_app_some PurePath.dot x e 0 He), Nat.add_0_r, strlen_app.
  assert (0 < String.length x)%nat by (destruct x; simpl; [congruence | lia]).
  destruct (Nat.ltb_spec 0 (String.length x)); [|lia].
  destruct (Nat.ltb_spec (String.length x)
              (String.length x + String.length e - 1)); [|lia].
  reflexivity.
Qed.

End SuffixFacts.

(** X13. The extension check accepts every capitalisation: for an
    existing input named [x] followed by an extension that lower-cases
    to [.docx] ([.DOCX], [.Docx], ...), that extension is the suffix,
    [x] is the stem, and once the bundle directory is made the converter
    is started. *)
Theorem X13_extension_in_any_case
    (run : Process) (input_file : Path) (output_dir : option Path)
    (standalone extract_media : bool) (w : World) (f1 : FileSystem)
    (x e : string) :
  PurePath.name input_file = x +:+ e ->
  x <> "" ->
  Str.lower e = ".docx" ->
  Fs.exists_ (fs w) input_file = true ->
  Fs.mkdir_parents (doc_dir_of input_file output_dir) (fs w) = (Ok tt, f1) ->
  PurePath.suffix input_file = e
  /\ PurePath.stem input_file = x
  /\ spawned (snd (convert_docx_to_latex run input_file output_dir
                     standalone extract_media w))
     = spawned w ++ [pandoc_cmd input_file (doc_dir_of input_file output_dir)
                       (output_path_of input_file output_dir)
                       standalone extract_media].
Proof.
  intros Hn Hx He Hex Hm.
  destruct (lower_docx_shape e He) as [Hr Hl].
  assert (Hs : PurePath.has_suffix (x +:+ e) = Some (String.length x))
    by (apply has_suffix_ext; [assumption | assumption | lia]).
  assert (Hsuf : PurePath.suffix input_file = e)
    by (unfold PurePath.suffix; now rewrite Hn, Hs, drop_app_length).
  assert (Hstem : PurePath.stem input_file = x)
    by (unfold PurePath.stem; now rewrite Hn, Hs, take_app_length).
  split; [assumption|]. split; [assumption|].
  apply (convert_spawned run _ _ _ _ _ f1 Hex); [|assumption].
  rewrite Hsuf, He. reflexivity.
Qed.

Lemma X13_witness :
  PurePath.suffix (docs // "X.DOCX") = ".DOCX"
  /\ PurePath.stem (docs // "X.DOCX") = "X".
Proof.
  set (made := Fs.mkdir_parents (doc_dir_of (docs // "X.DOCX") None)
                 (fs (world_of fs_upper))).
  assert (H1 : PurePath.name (docs // "X.DOCX") = "X" +:+ ".DOCX")
    by (vm_compute; reflexivity).
  assert (H2 : "X" <> "") by discriminate.
  assert (H3 : Str.lower ".DOCX" = ".docx") by (vm_compute; reflexivity).
  assert (H4 : Fs.exists_ (fs (world_of fs_upper)) (docs // "X.DOCX") = true)
    by (vm_compute; reflexivity).
  assert (H5 : fst made = Ok tt) by (vm_compute; reflexivity).
  destruct (X13_extension_in_any_case pandoc_ok (docs // "X.DOCX") None
              true true (world_of fs_upper) (snd made) "X" ".DOCX"
              H1 H2 H3 H4 (pair_fst_snd made _ H5)) as (Ha & Hb & _).
  exact (conj Ha Hb).
Defined.

(** ** Paths and their strings *)

Section RoundTrip.

#[local] Arguments append (_ _)%_string_scope : simpl nomatch.

Lemma split_app_sep (c : ascii) (x rest : string) :
  Str.rfind c x = None ->
  Str.split c (x +:+ String c rest) = x :: Str.split c rest.
Proof.
  induction x as [|a x IH]; simpl.
  - intros _. now rewrite Ascii.eqb_refl.
  - destruct (Str.rfind c x); [discriminate|].
    destruct (Ascii.eqb a c); [discriminate|].
    intros _. now rewrite IH.
Qed.

Lemma split_join (c : ascii) (x : string) (l : list string) :
  Forall (fun y => Str.rfind c y = None) (x :: l) ->
  Str.split c (Str.join (String c "") (x :: l)) = x :: l.
Proof.
  revert x. induction l as [|y l IH]; intros x H.
  - simpl. apply split_no_sep. now inversion H.
  - inversion H as [|? ? Hx Hl]; subst.
    change (Str.join (String c "") (x :: y :: l))
      with (x +:+ String c (Str.join (String c "") (y :: l))).
    rewrite split_app_sep by assumption. now rewrite IH.
Qed.

Lemma join_head (a : ascii) (x : string) (l : list string) :
  exists t, Str.join "/" (String a x :: l) = String a t.
Proof. destruct l; simpl; eauto. Qed.

Lemma filter_all {A} (f : A -> bool) (l : list A) :
  forallb f l = true -> List.filter f l = l.
Proof.
  induction l as [|a l IH]; simpl; [reflexivity|].
  intros H. apply andb_true_iff in H as [Ha Hl]. now rewrite Ha, IH.
Qed.

End RoundTrip.

Section RoundTripPath.

#[local] Arguments append (_ _)%_string_scope : simpl nomatch.

Lemma splitroot_str (r : Root) (a : ascii) (t : string) :
  Ascii.eqb a PurePath.slash = false ->
  PurePath.splitroot (PurePath.root_str r +:+ String a t) = (r, String a t).
Proof.
  intros Ha. destruct r; unfold PurePath.splitroot; simpl; rewrite Ha.
  - reflexivity.
  - replace (S (S (String.length t)) - String.length (String a t)) with 1
      by (simpl; lia).
    reflexivity.
  - replace (S (S (S (String.length t))) - String.length (String a t)) with 2
      by (simpl; lia).
    reflexivity.
Qed.

Lemma str_nonempty (r : Root) (a : ascii) (t : string) :
  String.eqb (PurePath.root_str r +:+ String a t) "" = false.
Proof. now destruct r. Qed.

End RoundTripPath.

(** X14. A path and its string round-trip: for a path whose components
    are non-empty, not [.] and free of slashes, parsing [str(p)] gives
    [p] back, whatever its root.  So the strings the script hands to the
    converter, and the paths [main] builds from its arguments, name the
    paths they were made from. *)
Theorem X14_parse_str_round_trip (p : Path) :
  forallb (fun c => PurePath.is_component c
                    && negb (Str.contains PurePath.slash c)) (parts p) = true ->
  PurePath.parse (PurePath.str p) = p.
Proof.
  destruct p as [r l]. cbn [parts]. intros H.
  destruct l as [|c l]; [now destruct r|].
  assert (Hall : Forall (fun y => Str.rfind PurePath.slash y = None) (c :: l)
                 /\ forallb PurePath.is_component (c :: l) = true).
  { clear -H. induction (c :: l) as [|y ys IH]; [now split|].
    cbn [forallb] in H. apply andb_true_iff in H as [Hy Hys].
    apply andb_true_iff in Hy as [Hy1 Hy2]. destruct (IH Hys) as [IH1 IH2].
    split.
    - constructor; [|assumption]. apply negb_true_iff in Hy2.
      unfold Str.contains in Hy2.
      now destruct (Str.rfind PurePath.slash y).
    - cbn [forallb]. now rewrite Hy1, IH2. }
  destruct Hall as [Hsl Hcomp].
  destruct c as [|a c].
  { cbn [forallb] in Hcomp. discriminate. }
  assert (Ha : Ascii.eqb a PurePath.slash = false).
  { inversion Hsl as [|? ? Hc _]; subst. simpl in Hc.
    destruct (Str.rfind PurePath.slash c); [discriminate|].
    now destruct (Ascii.eqb a PurePath.slash). }
  destruct (join_head a c l) as [t Ht].
  unfold PurePath.str, PurePath.parse. cbn [root parts].
  rewrite Ht, str_nonempty, (splitroot_str r a t Ha), <- Ht.
  change "/" with (String PurePath.slash "").
  rewrite (split_join PurePath.slash (String a c) l Hsl).
  now rewrite (filter_all _ _ Hcomp).
Qed.

Lemma X14_witness :
  PurePath.str (docs // "report" // "report.tex") = "/docs/report/report.tex"
  /\ PurePath.parse (PurePath.str (docs // "report" // "report.tex"))
     = docs // "report" // "report.tex".
Proof.
  split; [vm_compute; reflexivity|].
  assert (H : forallb (fun c => PurePath.is_component c
                                && negb (Str.contains PurePath.slash c))
                (parts (docs // "report" // "report.tex")) = true)
    by (vm_compute; reflexivity).
  exact (X14_parse_str_round_trip (docs // "report" // "report.tex") H).
Defined.

(** ** The tree shape of the file system *)

Section TreeFacts.

Lemma is_tree_insert_file (f : FileSystem) (p : Path) (d : file_data) :
  Fs.is_tree f = true -> Fs.is_dir f p = false ->
  Fs.is_dir f (PurePath.parent p) = true ->
  Fs.is_tree (<[p := File d]> f) = true.
Proof.
  rewrite !is_tree_spec. intros Ht Hp Hpar q n Hq.
  assert (Hkeep : forall a, Fs.is_dir f a = true ->
                            Fs.is_dir (<[p := File d]> f) a = true).
  { intros a Ha. destruct (decide (p = a)) as [->|Hne]; [congruence|].
    unfold Fs.is_dir in *. now rewrite stat_insert_ne. }
  destruct (decide (p = q)) as [->|Hpq].
  - now apply Hkeep.
  - rewrite lookup_insert_ne in Hq by assumption. apply Hkeep. eauto.
Qed.

Lemma open_w_ok_where (p : Path) (f f1 : FileSystem) :
  Fs.is_tree f = true -> Fs.open_w p f = (Ok tt, f1) ->
  Fs.is_dir f p = false /\ Fs.is_dir f (PurePath.parent p) = true.
Proof.
  intros Ht. unfold Fs.open_w, Fs.resolve_parent, Fs.is_dir.
  destruct (Fs.stat f p) as [[d|]|] eqn:Es.
  - intros _. split; [reflexivity|].
    unfold Fs.stat in Es. destruct (parts p); [discriminate|].
    rewrite is_tree_spec in Ht. exact (Ht _ _ Es).
  - discriminate.
  - destruct (Fs.stat f (PurePath.parent p)) as [[d|]|]; try discriminate.
    + now intros _.
    + destruct (existsb _ _); discriminate.
Qed.

Lemma mkdir_exist_ok_tree (p : Path) (f : FileSystem) :
  Fs.is_tree f = true -> Fs.is_tree (snd (Fs.mkdir_exist_ok p f)) = true.
Proof.
  intros Ht. unfold Fs.mkdir_exist_ok.
  destruct (Fs.os_mkdir p f) as [[[]|e] f1] eqn:E.
  - apply os_mkdir_ok in E as (-> & Hn & Hpar). cbn [snd].
    now apply is_tree_insert_dir.
  - apply os_mkdir_raise in E as ->.
    destruct (kind e); try destruct (Fs.is_dir f p); cbn [snd]; assumption.
Qed.

Lemma mkdir_rev_tree (r : Root) (rp : list string) :
  forall f, Fs.is_tree f = true ->
            Fs.is_tree (snd (Fs.mkdir_rev r rp f)) = true.
Proof.
  induction rp as [|x up IH]; intros f Ht; cbn [Fs.mkdir_rev].
  - destruct (Fs.os_mkdir _ f) as [[[]|e] f1] eqn:E.
    + apply os_mkdir_ok in E as (-> & Hn & Hpar). now apply is_tree_insert_dir.
    + apply os_mkdir_raise in E as ->.
      destruct (kind e); try destruct (Fs.is_dir f _); cbn [snd]; assumption.
  - destruct (Fs.os_mkdir _ f) as [[[]|e] f1] eqn:E.
    + apply os_mkdir_ok in E as (-> & Hn & Hpar). now apply is_tree_insert_dir.
    + apply os_mkdir_raise in E as ->.
      destruct (kind e);
        try (destruct (Fs.is_dir f _); cbn [snd]; assumption).
      specialize (IH f Ht).
      destruct (Fs.mkdir_rev r up f) as [[[]|e1] fs1]; cbn [snd] in *.
      * now apply mkdir_exist_ok_tree.
      * assumption.
Qed.

Lemma mkdir_parents_tree (p : Path) (f : FileSystem) :
  Fs.is_tree f = true -> Fs.is_tree (snd (Fs.mkdir_parents p f)) = true.
Proof. apply mkdir_rev_tree. Qed.

Lemma create_zip_archive_tree (d : Path) (n : string) (w : World) :
  Fs.is_tree (fs w) = true ->
  Fs.is_tree (fs (snd (create_zip_archive d n w))) = true.
Proof.
  intros Ht. destruct (create_zip_archive_fs d n w) as [Hok Hraise].
  destruct (Fs.open_w _ (fs w)) as [[[]|e] f1] eqn:E; cbn [fst] in *.
  - destruct (Hok eq_refl) as [-> _]. cbn [snd fs set_fs].
    destruct (open_w_ok_where _ _ _ Ht E). now apply is_tree_insert_file.
  - now rewrite (Hraise e eq_refl).
Qed.

Variable run : Process.
Hypothesis run_tree :
  forall cmd f, Fs.is_tree f = true -> Fs.is_tree (snd (run cmd f)) = true.

Lemma convert_tree i o sa em w :
  Fs.is_tree (fs w) = true ->
  Fs.is_tree (fs (snd (convert_docx_to_latex run i o sa em w))) = true.
Proof.
  intros Ht.
  destruct (Fs.exists_ (fs w) i) eqn:H1; [|now rewrite convert_missing].
  destruct (String.eqb (Str.lower (PurePath.suffix i)) ".docx") eqn:H2;
    [|now rewrite convert_bad_suffix].
  pose proof (mkdir_parents_tree (doc_dir_of i o) (fs w) Ht) as Hm.
  destruct (Fs.mkdir_parents (doc_dir_of i o) (fs w)) as [[[]|e] f1] eqn:H3;
    cbn [snd] in Hm;
    [|now rewrite (convert_mkdir_fail run _ _ _ _ _ _ _ H1 H2 H3)].
  rewrite (convert_run run _ _ _ _ _ _ H1 H2 H3). cbv zeta.
  match goal with
  | |- context [run ?c f1] =>
      pose proof (run_tree c f1 Hm) as Hr; destruct (run c f1) as [[cp|e] f2]
  end; cbn [snd] in Hr; [|assumption].
  destruct (Z.eqb (returncode cp) 0); [|assumption].
  match goal with
  | |- context [create_zip_archive ?d ?n ?w0] =>
      pose proof (create_zip_archive_tree d n w0 Hr) as Hz;
      destruct (create_zip_archive d n w0) as [[z|e] w3]
  end; assumption.
Qed.

Lemma run_items_tree files out sa em :
  forall w, Fs.is_tree (fs w) = true ->
            Fs.is_tree (fs (snd (run_items run files out sa em w))) = true.
Proof.
  induction files as [|f files IH]; intros w Ht; [assumption|].
  cbn [run_items].
  pose proof (convert_tree f (Some out) sa em w Ht) as Hc.
  destruct (convert_docx_to_latex run f (Some out) sa em w) as [r w1].
  cbn [snd] in Hc.
  assert (Hw2 : Fs.is_tree (fs match r with
                               | Ok _ => w1
                               | Raise e => snd (eprint (error_line f e) w1)
                               end) = true) by now destruct r.
  specialize (IH _ Hw2).
  now destruct (run_items run files out sa em _) as [rs w3].
Qed.

Lemma batch_convert_tree d o sa em w :
  Fs.is_tree (fs w) = true ->
  Fs.is_tree (fs (snd (batch_convert run d o sa em w))) = true.
Proof.
  intros Ht.
  destruct (Fs.is_dir (fs w) d) eqn:Hd; [|now rewrite batch_convert_not_dir].
  pose proof (mkdir_parents_tree (match o with Some x => x | None => d end)
                (fs w) Ht) as Hm.
  destruct (Fs.mkdir_parents _ (fs w)) as [[[]|e] f1] eqn:E; cbn [snd] in Hm.
  - rewrite (batch_convert_run run d o sa em w f1 Hd E).
    destruct (Fs.glob_docx f1 d) as [|f files]; [assumption|].
    cbv zeta. cbn [snd]. now apply run_items_tree.
  - now rewrite (batch_convert_mkdir_fail run d o sa em w e f1 Hd E).
Qed.

End TreeFacts.

(** X15. The script keeps the file system a tree: if every entry sits in
    a directory before, and the converter preserves that, then every
    entry sits in a directory after a conversion, after archiving and
    after a whole batch, whether they return or raise. *)
Theorem X15_tree_shape_is_kept
    (run : Process) (input_file : Path) (output_dir : option Path)
    (standalone extract_media : bool) (doc_dir : Path) (doc_name : string)
    (w : World) :
  (forall cmd f, Fs.is_tree f = true -> Fs.is_tree (snd (run cmd f)) = true) ->
  Fs.is_tree (fs w) = true ->
  Fs.is_tree (fs (snd (convert_docx_to_latex run input_file output_dir
                         standalone extract_media w))) = true
  /\ Fs.is_tree (fs (snd (create_zip_archive doc_dir doc_name w))) = true
  /\ Fs.is_tree (fs (snd (batch_convert run input_file output_dir
                            standalone extract_media w))) = true.
Proof.
  intros Hr Ht. split; [now apply convert_tree|].
  split; [now apply create_zip_archive_tree | now apply batch_convert_tree].
Qed.

Lemma X15_witness :
  Fs.is_tree (fs (snd (convert_docx_to_latex pandoc_fail (docs // "report.docx")
                         None true true (world_of fs_report)))) = true.
Proof.
  assert (H1 : forall cmd f, Fs.is_tree f = true ->
                             Fs.is_tree (snd (pandoc_fail cmd f)) = true)
    by (intros cmd f H; exact H).
  assert (H2 : Fs.is_tree (fs (world_of fs_report)) = true)
    by (vm_compute; reflexivity).
  exact (proj1 (X15_tree_shape_is_kept pandoc_fail (docs // "report.docx") None
                  true true bundle "report" (world_of fs_report) H1 H2)).
Defined.

(** ** The order of the results *)

Section OrderFacts.

Variable run : Process.

Lemma run_items_sublist files out sa em :
  forall w,
    sublist (successes (fst (run_items run files out sa em w)))
            (List.map (fun f => output_path_of f (Some out)) files).
Proof.
  induction files as [|f files IH]; intros w; [constructor|].
  cbn [run_items List.map].
  destruct (convert_docx_to_latex run f (Some out) sa em w) as [r w1] eqn:E.
  specialize (IH match r with
                 | Ok _ => w1
                 | Raise e => snd (eprint (error_line f e) w1)
                 end).
  destruct (run_items run files out sa em _) as [rs w3].
  cbn [fst successes] in *. destruct r as [r|e].
  - apply convert_ok_inv in E as (_ & _ & -> & _). now constructor.
  - now constructor.
Qed.

Lemma main_batch_run (args : Args) (w : World) :
  Fs.is_dir (fs w) (input_path_of args) = true ->
  main run args w =
    match batch_convert run (input_path_of args) (output_path_arg args)
            (negb (no_standalone args)) (negb (no_media args)) w with
    | (Ok rs, w') =>
        (0%Z, snd (print (newline +:+ "Converted " +:+ pretty (length rs)
                          +:+ " file(s)") w'))
    | (Raise e, w') => (1%Z, snd (eprint ("Error: " +:+ message e) w'))
    end.
Proof.
  intros Hd. unfold main, main_try. cbv zeta.
  unfold bind at 1. unfold Path_is_dir at 1. cbv beta iota. rewrite Hd.
  unfold bind at 1.
  now destruct (batch_convert run _ _ _ _ w) as [[rs|e] w1].
Qed.

End OrderFacts.

(** X16. A batch returns its results in the order of the enumeration:
    the returned list is a sub-list of the enumerated files' output
    paths [<output root>/<stem>/<stem>.tex], failed items left out and
    nothing reordered or repeated. *)
Theorem X16_results_in_enumeration_order
    (run : Process) (input_dir : Path) (output_dir : option Path)
    (standalone extract_media : bool) (w : World) (f1 : FileSystem) :
  Fs.is_dir (fs w) input_dir = true ->
  let output_path := match output_dir with Some x => x | None => input_dir end in
  Fs.mkdir_parents output_path (fs w) = (Ok tt, f1) ->
  exists rs : list Path,
    fst (batch_convert run input_dir output_dir standalone extract_media w)
      = Ok rs
    /\ sublist rs (List.map (fun f => output_path_of f (Some output_path))
                            (Fs.glob_docx f1 input_dir)).
Proof.
  intros Hd output_path Hm.
  rewrite (batch_convert_run run input_dir output_dir standalone
             extract_media w f1 Hd Hm).
  fold output_path.
  destruct (Fs.glob_docx f1 input_dir) as [|f files] eqn:G.
  - exists []. split; [reflexivity | constructor].
  - cbv zeta. eexists. split; [reflexivity|]. cbn [fst].
    apply run_items_sublist.
Qed.

Lemma X16_witness :
  let res := batch_convert pandoc_picky docs None true true (world_of fs_two) in
  fst res = Ok [PurePath.parse "/docs/b/b.tex"]
  /\ exists rs : list Path,
       fst res = Ok rs
       /\ sublist rs
            (List.map (fun f => output_path_of f (Some docs))
               (Fs.glob_docx
                  (snd (Fs.mkdir_parents docs (fs (world_of fs_two)))) docs)).
Proof.
  intros res. split; [vm_compute; reflexivity|].
  set (made := Fs.mkdir_parents docs (fs (world_of fs_two))).
  assert (H1 : Fs.is_dir (fs (world_of fs_two)) docs = true)
    by (vm_compute; reflexivity).
  assert (H2 : fst made = Ok tt) by (vm_compute; reflexivity).
  exact (X16_results_in_enumeration_order pandoc_picky docs None true true
           (world_of fs_two) (snd made) H1 (pair_fst_snd made _ H2)).
Defined.

(** X17. In directory mode, when the batch returns, [main] ends its
    standard output with [Converted <k> file(s)], where [k] counts the
    returned paths (not the enumerated files), writes no [Error:] line
    and exits with status 0. *)
Theorem X17_summary_counts_the_successes
    (run : Process) (args : Args) (w w' : World) (rs : list Path) :
  Fs.is_dir (fs w) (input_path_of args) = true ->
  batch_convert run (input_path_of args) (output_path_arg args)
    (negb (no_standalone args)) (negb (no_media args)) w = (Ok rs, w') ->
  fst (main run args w) = 0%Z
  /\ stdout (snd (main run args w))
     = stdout w' ++ [newline +:+ "Converted " +:+ pretty (length rs)
                     +:+ " file(s)"]
  /\ stderr (snd (main run args w)) = stderr w'.
Proof.
  intros Hd Hb. rewrite (main_batch_run run args w Hd), Hb. now repeat split.
Qed.

Lemma X17_witness :
  stdout (snd (main pandoc_picky (mkArgs "/docs" None false false)
                 (world_of fs_two)))
  = ["Found 2 Word document(s)" +:+ newline;
     "Converting: b.docx -> b/b.tex";
     "Successfully created: /docs/b/b.tex";
     "Created archive: /docs/b/b.zip";
     "Converting: a.docx -> a/a.tex";
     newline +:+ "Converted 1 file(s)"]
  /\ fst (main pandoc_picky (mkArgs "/docs" None false false) (world_of fs_two))
     = 0%Z.
Proof.
  split; [vm_compute; reflexivity|].
  set (args := mkArgs "/docs" None false false).
  set (res := batch_convert pandoc_picky (input_path_of args)
                (output_path_arg args) (negb (no_standalone args))
                (negb (no_media args)) (world_of fs_two)).
  assert (H1 : Fs.is_dir (fs (world_of fs_two)) (input_path_of args) = true)
    by (vm_compute; reflexivity).
  assert (H2 : fst res = Ok [PurePath.parse "/docs/b/b.tex"])
    by (vm_compute; reflexivity).
  exact (proj1 (X17_summary_counts_the_successes pandoc_picky args
                  (world_of fs_two) (snd res) [PurePath.parse "/docs/b/b.tex"]
                  H1 (pair_fst_snd res _ H2))).
Defined.
